(** * gemini-balance-pro: the API monitor middleware and the AI log store

  A shallow embedding of
    - app/middleware/api_monitor_middleware.py
    - app/service/ai_log/ai_log_service.py
    - app/router/ai_log_routes.py
  followed by the properties of the telemetry pipeline.

  Python values are modelled as follows.
    - [str] is a list of Unicode code points ([N]); [len] is the number
      of code points, as in Python.
    - [bytes] is a list of octets ([N] below 256).
    - [int] is [Z].
    - [None] is [option]'s [None] for [Optional[str]], and [PNone] inside
      decoded JSON documents.
    - an exception is an explicit [Raised] outcome. *)

From Stdlib Require Import ZArith NArith List Bool Lia String Ascii.
From Stdlib Require Import DecimalZ PrimFloat.
From stdpp Require Import base option list gmap.

Set Warnings "-register-all".

Local Open Scope Z_scope.

(* ===================================================================== *)
(** * Python runtime                                                      *)
(* ===================================================================== *)

Module Py.

(** A Python [str]: a sequence of code points. *)
Abbreviation pystr := (list N).

(** A Python [bytes] object. *)
Abbreviation pybytes := (list N).

(** ASCII literals of the sources, as code points. *)
Definition str (s : string) : pystr :=
  map N_of_ascii (list_ascii_of_string s).

(** [len(s)]. *)
Definition len {A} (s : list A) : Z := Z.of_nat (length s).

(** [s[:j]]: a negative bound counts from the end, and bounds outside
    the sequence are clamped. *)
Definition slice_to {A} (j : Z) (s : list A) : list A :=
  if j <? 0 then take (Z.to_nat (len s + j)) s else take (Z.to_nat j) s.

(** [s[i:]], with the same conventions. *)
Definition slice_from {A} (i : Z) (s : list A) : list A :=
  if i <? 0 then drop (Z.to_nat (len s + i)) s else drop (Z.to_nat i) s.

(** [a == b] on strings. *)
Definition str_eqb (a b : pystr) : bool := bool_decide (a = b).

(** [s.startswith(p)]. *)
Fixpoint startswith (s p : pystr) : bool :=
  match p, s with
  | [], _ => true
  | _ :: _, [] => false
  | c :: p', d :: s' => (c =? d)%N && startswith s' p'
  end.

(** [p in s] for strings: [p] occurs in [s] as a contiguous run. *)
Fixpoint contains (s p : pystr) : bool :=
  startswith s p ||
  match s with
  | [] => false
  | _ :: s' => contains s' p
  end.

(** [c.lower()] on the ASCII letters. Header names are HTTP tokens, so
    no other cased character reaches the calls below. *)
Definition lower_char (c : N) : N :=
  if (65 <=? c)%N && (c <=? 90)%N then (c + 32)%N else c.

Definition lower (s : pystr) : pystr := map lower_char s.

(** The digits of a decimal numeral, most significant first. *)
Fixpoint uint_digits (u : Decimal.uint) : pystr :=
  match u with
  | Decimal.Nil => []
  | Decimal.D0 u => 48%N :: uint_digits u
  | Decimal.D1 u => 49%N :: uint_digits u
  | Decimal.D2 u => 50%N :: uint_digits u
  | Decimal.D3 u => 51%N :: uint_digits u
  | Decimal.D4 u => 52%N :: uint_digits u
  | Decimal.D5 u => 53%N :: uint_digits u
  | Decimal.D6 u => 54%N :: uint_digits u
  | Decimal.D7 u => 55%N :: uint_digits u
  | Decimal.D8 u => 56%N :: uint_digits u
  | Decimal.D9 u => 57%N :: uint_digits u
  end.

(** [str(n)] for an [int], as an f-string renders it. *)
Definition str_of_int (n : Z) : pystr :=
  match Z.to_int n with
  | Decimal.Pos u => uint_digits u
  | Decimal.Neg u => 45%N :: uint_digits u
  end.

(** What a call does: it returns a value or raises. The exception
    carries the text that [str(e)] would give. *)
Inductive outcome (A : Type) : Type :=
| Returned (a : A)
| Raised (msg : pystr).
Arguments Returned {A} a.
Arguments Raised {A} msg.

(** ** Values of decoded JSON documents

    What [json.loads] returns: [None], [bool], [int], [float], [str],
    [list] and [dict] with [str] keys. A [dict] keeps its items in
    insertion order, one item per key. *)
Inductive pyval : Type :=
| PNone
| PBool (b : bool)
| PInt (n : Z)
| PFloat (x : PrimFloat.float)
| PStr (s : pystr)
| PList (xs : list pyval)
| PDict (items : list (pystr * pyval)).

(** [bool(v)], the test behind [if v:] and [not v]. *)
Definition truthy (v : pyval) : bool :=
  match v with
  | PNone => false
  | PBool b => b
  | PInt n => negb (n =? 0)
  | PFloat x => negb (PrimFloat.eqb x PrimFloat.zero)
  | PStr s => negb (bool_decide (s = []))
  | PList xs => match xs with [] => false | _ => true end
  | PDict items => match items with [] => false | _ => true end
  end.

(** [bool(s)] for an [Optional[str]]. *)
Definition truthy_opt (s : option pystr) : bool :=
  match s with
  | Some (_ :: _) => true
  | _ => false
  end.

(** The item stored under [key]. *)
Fixpoint dict_lookup {V} (items : list (pystr * V)) (key : pystr) : option V :=
  match items with
  | [] => None
  | (k, v) :: rest => if str_eqb k key then Some v else dict_lookup rest key
  end.

(** [d[key] = v]: an existing key keeps its place, a new one goes last. *)
Fixpoint dict_set {V} (items : list (pystr * V)) (key : pystr) (v : V)
  : list (pystr * V) :=
  match items with
  | [] => [(key, v)]
  | (k, w) :: rest =>
      if str_eqb k key then (k, v) :: rest else (k, w) :: dict_set rest key v
  end.

(** [o.get(key, dflt)]. Only a [dict] has the method: on any other
    value the attribute lookup raises [AttributeError]. *)
Definition get (o : pyval) (key : pystr) (dflt : pyval) : outcome pyval :=
  match o with
  | PDict items =>
      Returned (match dict_lookup items key with Some v => v | None => dflt end)
  | _ => Raised (str "AttributeError")
  end.

#[export] Instance outcome_ret : MRet outcome := fun A a => Returned a.

#[export] Instance outcome_bind : MBind outcome :=
  fun A B f m =>
    match m with
    | Returned a => f a
    | Raised e => Raised e
    end.

(** The elements a [for] loop visits: the items of a list, the keys of a
    dictionary, the characters of a string. Any other value of a JSON
    document is not iterable, and the loop raises [TypeError]. *)
Definition iterate (v : pyval) : outcome (list pyval) :=
  match v with
  | PList xs => Returned xs
  | PDict items => Returned (map (fun kv => PStr kv.1) items)
  | PStr s => Returned (map (fun c => PStr [c]) s)
  | _ => Raised (str "TypeError")
  end.

(** The receiver of a string method: on any other value of a JSON
    document the attribute lookup raises [AttributeError]. *)
Definition as_str (v : pyval) : outcome pystr :=
  match v with
  | PStr s => Returned s
  | _ => Raised (str "AttributeError")
  end.

(** [c.isspace()]. *)
Definition isspace (c : N) : bool :=
  (((9 <=? c) && (c <=? 13)) || ((28 <=? c) && (c <=? 32))
   || (c =? 133) || (c =? 160) || (c =? 5760)
   || ((8192 <=? c) && (c <=? 8202))
   || (c =? 8232) || (c =? 8233) || (c =? 8239) || (c =? 8287)
   || (c =? 12288))%N.

(** [s.split()]: the runs of characters between white space. [cur] is
    the run being read, last character first. *)
Fixpoint split_from (s cur : pystr) : list pystr :=
  match s with
  | [] => match cur with [] => [] | _ => [rev cur] end
  | c :: r =>
      if isspace c
      then match cur with
           | [] => split_from r []
           | _ => rev cur :: split_from r []
           end
      else split_from r (c :: cur)
  end.

Definition split (s : pystr) : list pystr := split_from s [].

(** [sep.join(words)]. *)
Fixpoint join (sep : pystr) (words : list pystr) : pystr :=
  match words with
  | [] => []
  | [w] => w
  | w :: rest => w ++ sep ++ join sep rest
  end.

(** ** Statements that update local variables and may raise

    A block of statements over local state [S]: it ends normally with a
    value or raises, and in both cases leaves the state it reached. *)
Definition block (S A : Type) : Type := S -> outcome A * S.

#[export] Instance block_ret {S} : MRet (block S) :=
  fun A a s => (Returned a, s).

#[export] Instance block_bind {S} : MBind (block S) :=
  fun A B f m s =>
    match m s with
    | (Returned a, s') => f a s'
    | (Raised e, s') => (Raised e, s')
    end.

(** The value of an expression that may raise. *)
Definition eval {S A} (o : outcome A) : block S A := fun s => (o, s).

(** [raise]. *)
Definition raise {S A} (msg : pystr) : block S A := fun s => (Raised msg, s).

(** An assignment to the local state. *)
Definition assign {S} (f : S -> S) : block S unit := fun s => (Returned tt, f s).

(** Reading the local state. *)
Definition read {S A} (f : S -> A) : block S A := fun s => (Returned (f s), s).

(** [try: body / except Exception as e: handler(e)]. *)
Definition try_except {S A} (body : block S A) (handler : pystr -> block S A)
  : block S A :=
  fun s =>
    match body s with
    | (Returned a, s') => (Returned a, s')
    | (Raised e, s') => handler e s'
    end.

End Py.
Import Py.

(* ===================================================================== *)
(** * A JSON decoder for concrete documents                               *)
(* ===================================================================== *)

(** [json.loads] belongs to the Python library. The middleware below is
    parameterised by it, and its properties hold for every decoder. This
    module gives one decoder to run the middleware on concrete documents:
    objects, arrays, strings without escape sequences, integers, [true],
    [false] and [null], with JSON's white space. It raises on anything
    else (floats and escape sequences included). *)
Module JsonSample.

Definition is_ws (c : N) : bool :=
  ((c =? 32) || (c =? 9) || (c =? 10) || (c =? 13))%N.

Fixpoint skip_ws (s : pystr) : pystr :=
  match s with
  | c :: r => if is_ws c then skip_ws r else s
  | [] => []
  end.

Definition is_digit (c : N) : bool := ((48 <=? c) && (c <=? 57))%N.

Fixpoint span_digits (s : pystr) : pystr * pystr :=
  match s with
  | c :: r =>
      if is_digit c
      then let '(ds, rest) := span_digits r in (c :: ds, rest)
      else ([], s)
  | [] => ([], [])
  end.

Definition digits_value (ds : pystr) : Z :=
  fold_left (fun acc c => 10 * acc + (Z.of_N c - 48)) ds 0.

(** An integer literal: no leading zero, and no fraction or exponent. *)
Definition number (negative : bool) (s : pystr) : option (pyval * pystr) :=
  match span_digits s with
  | ([], _) => None
  | (d :: ds, rest) =>
      let plain :=
        match rest with
        | c :: _ => negb ((c =? 46) || (c =? 101) || (c =? 69))%N
        | [] => true
        end in
      if ((d =? 48)%N && negb (bool_decide (ds = []))) || negb plain then None
      else
        let n := digits_value (d :: ds) in
        Some (PInt (if negative then - n else n), rest)
  end.

(** The characters of a string literal up to its closing quote. *)
Fixpoint string_body (s acc : pystr) : option (pystr * pystr) :=
  match s with
  | [] => None
  | c :: r =>
      if (c =? 34)%N then Some (rev acc, r)
      else if ((c =? 92) || (c <? 32))%N then None
      else string_body r (c :: acc)
  end.

Definition keyword (word : pystr) (v : pyval) (s : pystr)
  : option (pyval * pystr) :=
  if startswith s word then Some (v, drop (length word) s) else None.

Fixpoint value (fuel : nat) (s : pystr) : option (pyval * pystr) :=
  match fuel with
  | O => None
  | S fuel =>
      match skip_ws s with
      | [] => None
      | c :: r =>
          if (c =? 123)%N then
            match skip_ws r with
            | 125%N :: r' => Some (PDict [], r')
            | r' => match members fuel r' [] with
                    | Some (items, rest) => Some (PDict items, rest)
                    | None => None
                    end
            end
          else if (c =? 91)%N then
            match skip_ws r with
            | 93%N :: r' => Some (PList [], r')
            | r' => match elements fuel r' [] with
                    | Some (xs, rest) => Some (PList xs, rest)
                    | None => None
                    end
            end
          else if (c =? 34)%N then
            match string_body r [] with
            | Some (t, rest) => Some (PStr t, rest)
            | None => None
            end
          else if (c =? 45)%N then number true r
          else if is_digit c then number false (c :: r)
          else if (c =? 116)%N then keyword (str "true") (PBool true) (c :: r)
          else if (c =? 102)%N then keyword (str "false") (PBool false) (c :: r)
          else if (c =? 110)%N then keyword (str "null") PNone (c :: r)
          else None
      end
  end
with elements (fuel : nat) (s : pystr) (acc : list pyval)
  : option (list pyval * pystr) :=
  match fuel with
  | O => None
  | S fuel =>
      match value fuel s with
      | None => None
      | Some (v, rest) =>
          match skip_ws rest with
          | 44%N :: rest' => elements fuel rest' (acc ++ [v])
          | 93%N :: rest' => Some (acc ++ [v], rest')
          | _ => None
          end
      end
  end
with members (fuel : nat) (s : pystr) (acc : list (pystr * pyval))
  : option (list (pystr * pyval) * pystr) :=
  match fuel with
  | O => None
  | S fuel =>
      match skip_ws s with
      | 34%N :: r =>
          match string_body r [] with
          | None => None
          | Some (key, rest) =>
              match skip_ws rest with
              | 58%N :: rest' =>
                  match value fuel rest' with
                  | None => None
                  | Some (v, rest'') =>
                      match skip_ws rest'' with
                      | 44%N :: more => members fuel more (dict_set acc key v)
                      | 125%N :: more => Some (dict_set acc key v, more)
                      | _ => None
                      end
                  end
              | _ => None
              end
          end
      | _ => None
      end
  end.

Definition json_loads (s : pystr) : outcome pyval :=
  match value (S (length s)) s with
  | Some (v, rest) =>
      match skip_ws rest with
      | [] => Returned v
      | _ => Raised (str "JSONDecodeError")
      end
  | None => Raised (str "JSONDecodeError")
  end.

(** A document written with apostrophes where JSON has double quotes. *)
Definition doc (s : string) : pystr :=
  map (fun c => if (c =? 39)%N then 34%N else c) (str s).

(** [bytes.decode('utf-8', errors='replace')] on ASCII text: every octet
    below 128 is its own character. An octet from 128 on is shown as
    U+FFFD, which is right for a stray octet only. *)
Definition decode (b : pybytes) : pystr :=
  map (fun c => if (c <? 128)%N then c else 65533%N) b.

(** [json.dumps] for a dictionary of strings that need no escaping. *)
Definition json_dumps (d : list (pystr * pystr)) : pystr :=
  str "{"
    ++ join (str ", ")
         (map (fun kv => [34%N] ++ kv.1 ++ [34%N] ++ str ": "
                           ++ [34%N] ++ kv.2 ++ [34%N]) d)
    ++ str "}".

End JsonSample.

(* ===================================================================== *)
(** * app/service/ai_log/ai_log_service.py                                *)
(* ===================================================================== *)

Module AiLogService.

(** The keyword arguments of [add_ai_log], which are the columns of an
    [AILog] row apart from [id] (the fields of [AILogDetailResponse] in
    the router). [model_name] and the token counters hold whatever the
    middleware read out of a JSON document, so they are [pyval]s. A time
    stamp is a number of microseconds. *)
Record AILogValues : Type := {
  method : option pystr;
  path : option pystr;
  request_headers : option pystr;
  request_body : option pystr;
  status_code : option Z;
  response_body : option pystr;
  latency_ms : option Z;
  model_name : pyval;
  api_key : option pystr;
  request_time : option Z;
  prompt_tokens : pyval;
  completion_tokens : pyval;
  total_tokens : pyval;
  content_preview : option pystr;
}.

(** The statements the service builds with [insert], [delete] and
    [select] before handing them to [database]. *)
Inductive Statement : Type :=
| InsertValues (values : AILogValues)
| DeleteWhereIdEq (log_id : Z)
| DeleteWhereIdIn (log_ids : list Z)
| SelectWhereIdEq (log_id : Z).

(** Modelled from the spec: [app.database.connection.database] and the
    [AILog] table of [app.database.models] are not among the sources. The
    storage engine is "consumed as an abstract execute/query interface"
    whose operations are "individually atomic"; [id] is "monotonically
    assigned" and "store-owned". The table maps an id to its row. A
    statement may fail in the engine (no connection, a value the column
    refuses): [engine_error] says for which statements and with which
    message, and a failing statement changes nothing. *)
Record Database : Type := {
  table : gmap Z AILogValues;
  next_id : Z;
  engine_error : Statement -> option pystr;
}.

Inductive level : Type := INFO | WARNING | ERROR.

(** What the service and the router act on: the database, the records
    written to the loggers (oldest first) and the reading of
    [datetime.now()]. *)
Record World : Type := {
  database : Database;
  log : list (level * pystr);
  now : Z;
}.

Definition logger (lvl : level) (msg : pystr) : block World unit :=
  assign (fun w =>
    {| database := database w; log := log w ++ [(lvl, msg)]; now := now w |}).

Definition set_table (t : gmap Z AILogValues) (next : Z) : block World unit :=
  assign (fun w =>
    {| database := {| table := t; next_id := next;
                      engine_error := engine_error (database w) |};
       log := log w; now := now w |}).

(** Modelled from the spec: [database.execute(query)] for the statements
    that write. An insert stores the values under the next id; a delete
    removes the rows its [where] clause selects, and selects none without
    complaint. *)
Definition execute (query : Statement) : block World unit :=
  db ← read database;
  match engine_error db query with
  | Some msg => raise msg
  | None =>
      match query with
      | InsertValues values =>
          set_table (<[next_id db := values]> (table db)) (next_id db + 1)
      | DeleteWhereIdEq log_id =>
          set_table (filter (fun kv => kv.1 ≠ log_id) (table db)) (next_id db)
      | DeleteWhereIdIn log_ids =>
          set_table (filter (fun kv => kv.1 ∉ log_ids) (table db)) (next_id db)
      | SelectWhereIdEq _ => mret tt
      end
  end.

(** Modelled from the spec: [database.fetch_one(query)], the first row of
    a [select], or [None]. *)
Definition fetch_one (query : Statement) : block World (option (Z * AILogValues)) :=
  db ← read database;
  match engine_error db query with
  | Some msg => raise msg
  | None =>
      match query with
      | SelectWhereIdEq log_id =>
          mret (match table db !! log_id with
                | Some row => Some (log_id, row)
                | None => None
                end)
      | _ => mret None
      end
  end.

Definition add_ai_log (kw : AILogValues) : block World bool :=
  try_except
    (t ← read now;
     let query := InsertValues {|
       method := method kw;
       path := path kw;
       request_headers := request_headers kw;
       request_body := request_body kw;
       status_code := status_code kw;
       response_body := response_body kw;
       latency_ms := latency_ms kw;
       model_name := model_name kw;
       api_key := api_key kw;
       request_time :=
         match request_time kw with Some r => Some r | None => Some t end;
       prompt_tokens := prompt_tokens kw;
       completion_tokens := completion_tokens kw;
       total_tokens := total_tokens kw;
       content_preview := content_preview kw |} in
     execute query;;
     mret true)
    (fun e =>
       logger ERROR (str "Failed to add AI log: " ++ e);;
       mret false).

Definition get_ai_log_details (log_id : Z)
  : block World (option (Z * AILogValues)) :=
  try_except
    (let query := SelectWhereIdEq log_id in
     result ← fetch_one query;
     mret result)
    (fun e =>
       logger ERROR (str "Failed to get AI log details for ID "
                       ++ str_of_int log_id ++ str ": " ++ e);;
       raise e).

Definition delete_ai_log_by_id (log_id : Z) : block World bool :=
  try_except
    (let query := DeleteWhereIdEq log_id in
     execute query;;
     mret true)
    (fun e =>
       logger ERROR (str "Failed to delete AI log ID "
                       ++ str_of_int log_id ++ str ": " ++ e);;
       mret false).

Definition delete_ai_logs_by_ids (log_ids : list Z) : block World Z :=
  try_except
    (let query := DeleteWhereIdIn log_ids in
     execute query;;
     mret (len log_ids))
    (fun e =>
       logger ERROR (str "Failed to delete AI logs by IDs: " ++ e);;
       raise e).

End AiLogService.

(* ===================================================================== *)
(** * app/middleware/api_monitor_middleware.py: the module functions      *)
(* ===================================================================== *)

Module Middleware.

Definition MAX_BODY_LENGTH : Z := 50000.

(** The marker of the f-string
    [f"\n... (截断，共 {len(data)} 字符)"]: line feed, three dots, a
    space, an opening parenthesis, U+622A U+65AD U+FF0C U+5171, a space,
    the count, a space, U+5B57 U+7B26 and a closing parenthesis. *)
Definition truncation_marker (n : Z) : pystr :=
  [10%N] ++ str "... (" ++ [25130; 26029; 65292; 20849]%N ++ str " "
    ++ str_of_int n ++ str " " ++ [23383; 31526]%N ++ str ")".

Definition truncate_body (data : pystr) (max_length : Z) : pystr :=
  if len data >? max_length
  then slice_to max_length data ++ truncation_marker (len data)
  else data.

Definition redact_api_key (key : option pystr) : option pystr :=
  match key with
  | None => None
  | Some [] => None
  | Some k =>
      if len k <=? 12
      then if len k >? 6
           then Some (slice_to 3 k ++ str "..." ++ slice_from (-3) k)
           else Some (str "***")
      else Some (slice_to 6 k ++ str "..." ++ slice_from (-6) k)
  end.

(** The regular expression [/models/([^/:]+)]: the class matches every
    character except the slash and the colon, and the [+] is greedy. *)
Definition name_char (c : N) : bool := negb ((c =? 47) || (c =? 58))%N.

Fixpoint name_run (s : pystr) : pystr :=
  match s with
  | c :: r => if name_char c then c :: name_run r else []
  | [] => []
  end.

(** A match of the expression that starts at the head of [s]: its group. *)
Definition match_here (s : pystr) : option pystr :=
  if startswith s (str "/models/")
  then match name_run (slice_from 8 s) with
       | [] => None
       | name => Some name
       end
  else None.

(** [re.search]: the match at the leftmost position that has one. *)
Fixpoint re_search (s : pystr) : option pystr :=
  match match_here s with
  | Some name => Some name
  | None =>
      match s with
      | [] => None
      | _ :: r => re_search r
      end
  end.

Definition extract_model_from_path (path : pystr) : option pystr :=
  match re_search path with
  | Some group1 => Some group1
  | None => None
  end.

(** The shape the specification gives for the path: [s] starts with
    [/models/<name>], where [<name>] is not empty, has no slash and no
    colon, and runs up to the end of [s] or to the next slash or colon. *)
Definition spec_models_segment (s name : pystr) : Prop :=
  name <> [] /\
  Forall (fun c => c <> 47%N /\ c <> 58%N) name /\
  exists rest,
    s = str "/models/" ++ name ++ rest /\
    (forall c r, rest = c :: r -> c = 47%N \/ c = 58%N).


(** [o.get(key)] on a dictionary. *)
Definition member (o : list (pystr * pyval)) (key : pystr) : pyval :=
  match dict_lookup o key with
  | Some v => v
  | None => PNone
  end.

(** The three local variables of [extract_tokens_from_response]. *)
Record Tokens : Type := {
  prompt_tokens : pyval;
  completion_tokens : pyval;
  total_tokens : pyval;
}.

Definition set_prompt_tokens (v : pyval) : block Tokens unit :=
  assign (fun t => {| prompt_tokens := v;
                      completion_tokens := completion_tokens t;
                      total_tokens := total_tokens t |}).

Definition set_completion_tokens (v : pyval) : block Tokens unit :=
  assign (fun t => {| prompt_tokens := prompt_tokens t;
                      completion_tokens := v;
                      total_tokens := total_tokens t |}).

Definition set_total_tokens (v : pyval) : block Tokens unit :=
  assign (fun t => {| prompt_tokens := prompt_tokens t;
                      completion_tokens := completion_tokens t;
                      total_tokens := v |}).

(** A request as the middleware reads it: [request.method],
    [request.url.path], [request.headers.items()] in the order received
    (a name may repeat), and what [await request.body()] does. *)
Record Request : Type := {
  req_method : pystr;
  req_path : pystr;
  req_headers : list (pystr * pystr);
  req_body : outcome pybytes;
}.

(** A response: its status, its header lines (a name may repeat, as
    [set-cookie] does), the chunks its [body_iterator] yields and its
    [media_type]. [Response(content=b, ...)] has the single chunk [b]. *)
Record Response : Type := {
  status_code : Z;
  headers : list (pystr * pystr);
  body_iterator : list pybytes;
  media_type : option pystr;
}.

(** The bytes a client receives as the body. *)
Definition body_bytes (r : Response) : pybytes := concat (body_iterator r).

(** [dict(response.headers)]: a dictionary has one item per key. The
    keys come in the order of [keys()], and each is looked up with
    [response.headers[key]], which gives the first line of that name. *)
Fixpoint dict_of_headers (lines : list (pystr * pystr)) : list (pystr * pystr) :=
  match lines with
  | [] => []
  | (k, v) :: rest =>
      (k, v) :: filter (fun kv => kv.1 ≠ k) (dict_of_headers rest)
  end.

(** The two local variables of the loop over the request headers. *)
Record HeaderScan : Type := {
  headers_dict : list (pystr * pystr);
  scanned_api_key : option pystr;
}.

Definition MONITOR_PATHS : list pystr :=
  [str "/v1/"; str "/gemini/"; str "/openai/"; str "/hf/"; str "/vertex-express/"].

Definition EXCLUDE_PATHS : list pystr :=
  [str "/static/"; str "/health"; str "/favicon.ico"].

Definition should_monitor (path : pystr) : bool :=
  if existsb (fun exclude => startswith path exclude) EXCLUDE_PATHS then false
  else if existsb (fun monitor => startswith path monitor) MONITOR_PATHS then true
  else false.

Definition important_headers : list pystr :=
  [str "content-type"; str "authorization"; str "user-agent"; str "x-api-key"].

(** [x in xs] for a list of strings. *)
Definition str_in (x : pystr) (xs : list pystr) : bool :=
  existsb (str_eqb x) xs.

(** One round of [for k, v in request.headers.items()]. *)
Definition scan_header (st : HeaderScan) (kv : pystr * pystr) : HeaderScan :=
  let '(k, v) := kv in
  if str_in (lower k) important_headers then
    if str_in (lower k) [str "authorization"; str "x-api-key"] then
      let api_key :=
        if str_eqb (lower k) (str "authorization") && startswith v (str "Bearer ")
        then Some (slice_from 7 v)
        else if str_eqb (lower k) (str "x-api-key") then Some v
        else scanned_api_key st in
      let shown :=
        if truthy_opt (redact_api_key (Some v))
        then match redact_api_key (Some v) with Some r => r | None => v end
        else v in
      {| headers_dict := dict_set (headers_dict st) k shown;
         scanned_api_key := api_key |}
    else
      {| headers_dict := dict_set (headers_dict st) k v;
         scanned_api_key := scanned_api_key st |}
  else st.

Definition scan_headers (items : list (pystr * pystr)) : HeaderScan :=
  fold_left scan_header items {| headers_dict := []; scanned_api_key := None |}.

(** The header lines on which the loop assigns [api_key]: an
    [authorization] line whose value starts with [Bearer ], and every
    [x-api-key] line. *)
Definition assigns_api_key (kv : pystr * pystr) : bool :=
  (str_eqb (lower kv.1) (str "authorization") && startswith kv.2 (str "Bearer "))
  || str_eqb (lower kv.1) (str "x-api-key").

(** The request the wrapped handler receives: [receive] is replaced so
    that it yields the body that [dispatch] has read. *)
Definition forwarded_request (request : Request) (body : pybytes) : Request :=
  {| req_method := req_method request;
     req_path := req_path request;
     req_headers := req_headers request;
     req_body := Returned body |}.

Section Collaborators.

(** [json.loads] and [json.dumps(..., ensure_ascii=False)] of the Python
    library, and [bytes.decode('utf-8', errors='replace')], which never
    raises. *)
Variable json_loads : pystr -> outcome pyval.
Variable json_dumps : list (pystr * pystr) -> pystr.
Variable decode : pybytes -> pystr.

Definition extract_model_from_body (body_str : pystr) : pyval :=
  match json_loads body_str with
  | Raised _ => PNone
  | Returned data =>
      match get data (str "model") PNone with
      | Raised _ => PNone
      | Returned model => model
      end
  end.

(** [" ".join(text.split())], cut to [max_length] characters. *)
Definition preview_of (max_length : Z) (text : pystr) : pystr :=
  let text := join (str " ") (split text) in
  if len text >? max_length then slice_to max_length text else text.

(** The loops of [extract_content_preview]. A loop gives [Some t] when it
    reaches a [return t], and [None] when it runs to its end. *)
Fixpoint preview_in_items (max_length : Z) (content : list pyval)
  : outcome (option pystr) :=
  match content with
  | [] => mret None
  | item :: rest =>
      match item with
      | PDict kvs =>
          match dict_lookup kvs (str "type") with
          | Some (PStr ty) =>
              if str_eqb ty (str "text") then
                text ← as_str (default (PStr []) (dict_lookup kvs (str "text")));
                mret (Some (preview_of max_length text))
              else preview_in_items max_length rest
          | _ => preview_in_items max_length rest
          end
      | _ => preview_in_items max_length rest
      end
  end.

Fixpoint preview_in_messages (max_length : Z) (messages : list pyval)
  : outcome (option pystr) :=
  match messages with
  | [] => mret None
  | msg :: rest =>
      content ← get msg (str "content") PNone;
      if truthy content then
        match content with
        | PStr s => mret (Some (preview_of max_length s))
        | PList items =>
            found ← preview_in_items max_length items;
            match found with
            | Some t => mret (Some t)
            | None => preview_in_messages max_length rest
            end
        | _ => preview_in_messages max_length rest
        end
      else preview_in_messages max_length rest
  end.

Fixpoint preview_in_parts (max_length : Z) (parts : list pyval)
  : outcome (option pystr) :=
  match parts with
  | [] => mret None
  | part :: rest =>
      match part with
      | PDict kvs =>
          match dict_lookup kvs (str "text") with
          | Some text =>
              text ← as_str text;
              mret (Some (preview_of max_length text))
          | None => preview_in_parts max_length rest
          end
      | _ => preview_in_parts max_length rest
      end
  end.

Fixpoint preview_in_contents (max_length : Z) (contents : list pyval)
  : outcome (option pystr) :=
  match contents with
  | [] => mret None
  | c :: rest =>
      parts ← get c (str "parts") (PList []);
      parts ← iterate parts;
      found ← preview_in_parts max_length parts;
      match found with
      | Some t => mret (Some t)
      | None => preview_in_contents max_length rest
      end
  end.

(** The body of the [try] of [extract_content_preview]. *)
Definition probe_preview (body_str : pystr) (max_length : Z)
  : outcome (option pystr) :=
  data ← json_loads body_str;
  messages ← get data (str "messages") (PList []);
  found ← (if truthy messages
           then msgs ← iterate messages; preview_in_messages max_length msgs
           else mret None);
  match found with
  | Some t => mret (Some t)
  | None =>
      contents ← get data (str "contents") (PList []);
      found ← (if truthy contents
               then cs ← iterate contents; preview_in_contents max_length cs
               else mret None);
      match found with
      | Some t => mret (Some t)
      | None =>
          prompt ← get data (str "prompt") PNone;
          if truthy prompt then
            prompt ← as_str prompt;
            mret (Some (preview_of max_length prompt))
          else mret None
      end
  end.

Definition extract_content_preview (body_str : pystr) (max_length : Z)
  : option pystr :=
  match probe_preview body_str max_length with
  | Returned found => found
  | Raised _ => None
  end.

(** The body of the [try] of [extract_tokens_from_response]. *)
Definition probe_tokens (response_str : pystr) : block Tokens unit :=
  data ← eval (json_loads response_str);
  usage ← eval (get data (str "usage") (PDict []));
  (if truthy usage then
     v ← eval (get usage (str "prompt_tokens") PNone);
     set_prompt_tokens v;;
     v ← eval (get usage (str "completion_tokens") PNone);
     set_completion_tokens v;;
     v ← eval (get usage (str "total_tokens") PNone);
     set_total_tokens v
   else mret tt);;
  usage_metadata ← eval (get data (str "usageMetadata") (PDict []));
  (if truthy usage_metadata then
     v ← eval (get usage_metadata (str "promptTokenCount") PNone);
     set_prompt_tokens v;;
     v ← eval (get usage_metadata (str "candidatesTokenCount") PNone);
     set_completion_tokens v;;
     v ← eval (get usage_metadata (str "totalTokenCount") PNone);
     set_total_tokens v
   else mret tt).

Definition extract_tokens_from_response (response_str : pystr)
  : pyval * pyval * pyval :=
  let t := (try_except (probe_tokens response_str) (fun _ => mret tt)
              {| prompt_tokens := PNone;
                 completion_tokens := PNone;
                 total_tokens := PNone |}).2 in
  (prompt_tokens t, completion_tokens t, total_tokens t).

(** Lines 173 to 189 of [dispatch]: the body read back as text, and the
    model name taken from the body and otherwise from the path. The
    result is [(body, request_body_str, model_name)]. *)
Definition read_request_body (request : Request) : pybytes * pystr * pyval :=
  let '(body, request_body_str, model_name) :=
    match req_body request with
    | Returned body =>
        match body with
        | _ :: _ =>
            let request_body_str := decode body in
            (body, request_body_str, extract_model_from_body request_body_str)
        | [] => (body, [], PNone)
        end
    | Raised e =>
        ([], str "[Error reading body: " ++ e ++ str "]", PNone)
    end in
  let model_name :=
    if negb (truthy model_name)
    then match extract_model_from_path (req_path request) with
         | Some name => PStr name
         | None => PNone
         end
    else model_name in
  (body, request_body_str, model_name).

(** The keyword arguments of the [_save_log] task that [dispatch] hands
    to [asyncio.create_task]. *)
Definition save_log_arguments (request : Request) (response : Response)
    (request_time duration_ms : Z) : AiLogService.AILogValues :=
  let scan := scan_headers (req_headers request) in
  let request_headers_str := json_dumps (headers_dict scan) in
  let '(_, request_body_str, model_name) := read_request_body request in
  let response_body := concat (body_iterator response) in
  let response_body_str :=
    match response_body with
    | _ :: _ => decode response_body
    | [] => []
    end in
  let '(prompt, completion, total) :=
    extract_tokens_from_response response_body_str in
  {| AiLogService.method := Some (req_method request);
     AiLogService.path := Some (req_path request);
     AiLogService.request_headers := Some request_headers_str;
     AiLogService.request_body :=
       Some (truncate_body request_body_str MAX_BODY_LENGTH);
     AiLogService.status_code := Some (status_code response);
     AiLogService.response_body :=
       Some (truncate_body response_body_str MAX_BODY_LENGTH);
     AiLogService.latency_ms := Some duration_ms;
     AiLogService.model_name := model_name;
     AiLogService.api_key := redact_api_key (scanned_api_key scan);
     AiLogService.request_time := Some request_time;
     AiLogService.prompt_tokens := prompt;
     AiLogService.completion_tokens := completion;
     AiLogService.total_tokens := total;
     AiLogService.content_preview := extract_content_preview request_body_str 12 |}.

(** [dispatch]. [call_next] is the wrapped handler; [request_time] and
    [duration_ms] are the readings of the clock. The result is the
    response for the caller and the task created, if any. The handler
    receives the request with its body put back by [receive]. *)
Definition dispatch (request : Request)
    (call_next : Request -> outcome Response) (request_time duration_ms : Z)
  : outcome (Response * option AiLogService.AILogValues) :=
  if negb (should_monitor (req_path request)) then
    match call_next request with
    | Returned response => Returned (response, None)
    | Raised e => Raised e
    end
  else
    let '(body, _, _) := read_request_body request in
    match call_next (forwarded_request request body) with
    | Raised e => Raised e
    | Returned response =>
        let response_body := concat (body_iterator response) in
        let task := save_log_arguments request response request_time duration_ms in
        Returned
          ({| status_code := status_code response;
              headers := dict_of_headers (headers response);
              body_iterator := [response_body];
              media_type := media_type response |},
           Some task)
    end.

End Collaborators.

(** [_save_log]: the task that runs after [dispatch] has returned. *)
Definition _save_log (kw : AiLogService.AILogValues)
  : block AiLogService.World unit :=
  try_except
    (AiLogService.add_ai_log kw;;
     mret tt)
    (fun e =>
       AiLogService.logger AiLogService.ERROR
         (str "Failed to save AI log to database: " ++ e)).

(** One exchange from the caller's side: [dispatch] returns the response
    to the caller, and the event loop runs the task it created against
    the store afterwards. *)
Definition exchange (json_loads : pystr -> outcome pyval)
    (json_dumps : list (pystr * pystr) -> pystr) (decode : pybytes -> pystr)
    (request : Request) (call_next : Request -> outcome Response)
    (request_time duration_ms : Z) (w : AiLogService.World)
  : outcome Response * AiLogService.World :=
  match dispatch json_loads json_dumps decode request call_next
          request_time duration_ms with
  | Returned (response, Some task) => (Returned response, (_save_log task w).2)
  | Returned (response, None) => (Returned response, w)
  | Raised e => (Raised e, w)
  end.

End Middleware.
Import Middleware.


(* ===================================================================== *)
(** * app/router/ai_log_routes.py                                         *)
(* ===================================================================== *)

Module AiLogRoutes.
Import AiLogService.

(** How a route ends: it returns a response with a status, or raises an
    [HTTPException], which FastAPI answers with that status. *)
Inductive RouteResult : Type :=
| ResponseStatus (status : Z)
| HTTPException (status : Z) (detail : pystr).

(** The status line the client sees. *)
Definition client_status (r : RouteResult) : Z :=
  match r with
  | ResponseStatus status => status
  | HTTPException status _ => status
  end.

Definition HTTP_204_NO_CONTENT : Z := 204.

Section Security.

(** [app.core.security.verify_auth_token]. *)
Variable verify_auth_token : pystr -> bool.

(** [not auth_token or not verify_auth_token(auth_token)]. *)
Definition rejected (auth_token : option pystr) : bool :=
  negb (truthy_opt auth_token)
  || negb (match auth_token with
           | Some t => verify_auth_token t
           | None => false
           end).

(** [DELETE /api/ai-logs/{log_id}]. [cookies] is [request.cookies]. The
    declaration [log_id: int = Path(..., ge=1)] makes FastAPI answer 422
    before the function runs when the bound fails. An [HTTPException]
    raised inside the [try] is raised again by its first handler, so it
    is the way the route ends. *)
Definition delete_ai_log_api (cookies : list (pystr * pystr)) (log_id : Z)
  : block World RouteResult :=
  if log_id <? 1 then
    mret (HTTPException 422 (str "Input should be greater than or equal to 1"))
  else
    let auth_token := dict_lookup cookies (str "auth_token") in
    if rejected auth_token then
      logger WARNING (str "Unauthorized access attempt to delete AI log ID: "
                        ++ str_of_int log_id);;
      mret (HTTPException 401 (str "Not authenticated"))
    else
      try_except
        (success ← delete_ai_log_by_id log_id;
         if negb success then
           mret (HTTPException 404
                   (str "AI log with ID " ++ str_of_int log_id ++ str " not found"))
         else
           logger INFO (str "Successfully deleted AI log with ID: "
                          ++ str_of_int log_id);;
           mret (ResponseStatus HTTP_204_NO_CONTENT))
        (fun e =>
           logger ERROR (str "Error deleting AI log with ID "
                           ++ str_of_int log_id ++ str ": " ++ e);;
           mret (HTTPException 500 (str "Internal server error during deletion"))).

(** [GET /api/ai-logs/{log_id}/details], up to the status: the sibling
    route, which looks the row up before it answers. *)
Definition get_ai_log_detail_api (cookies : list (pystr * pystr)) (log_id : Z)
  : block World RouteResult :=
  if log_id <? 1 then
    mret (HTTPException 422 (str "Input should be greater than or equal to 1"))
  else
    let auth_token := dict_lookup cookies (str "auth_token") in
    if rejected auth_token then
      logger WARNING (str "Unauthorized access attempt to AI log details for ID: "
                        ++ str_of_int log_id);;
      mret (HTTPException 401 (str "Not authenticated"))
    else
      try_except
        (log_details ← get_ai_log_details log_id;
         match log_details with
         | None => mret (HTTPException 404 (str "AI log not found"))
         | Some _ => mret (ResponseStatus 200)
         end)
        (fun e =>
           logger ERROR (str "Failed to get AI log details for ID "
                           ++ str_of_int log_id ++ str ": " ++ e);;
           mret (HTTPException 500 (str "Failed to get AI log details: " ++ e))).

End Security.

End AiLogRoutes.

(* ===================================================================== *)
(** * Concrete requests and handlers                                      *)
(* ===================================================================== *)

Module Examples.

(** A handler that answers every request with a JSON document and two
    cookies. *)
Definition cookie_handler (_ : Request) : outcome Response :=
  Returned
    {| status_code := 200;
       headers := [(str "content-type", str "application/json");
                   (str "set-cookie", str "a=1");
                   (str "set-cookie", str "b=2")];
       body_iterator := [JsonSample.doc "{'usage': {'total_tokens': 7}, ";
                         JsonSample.doc "'usageMetadata': {'totalTokenCount': 9}}"];
       media_type := None |}.

(** A handler whose response has no repeated header name. *)
Definition plain_handler (_ : Request) : outcome Response :=
  Returned
    {| status_code := 200;
       headers := [(str "content-type", str "application/json")];
       body_iterator := [JsonSample.doc "{'usage': "; JsonSample.doc "{'total_tokens': 7}}"];
       media_type := None |}.

Definition bearer_request : Request :=
  {| req_method := str "POST";
     req_path := str "/v1/chat/completions";
     req_headers := [(str "content-type", str "application/json");
                     (str "Authorization", str "Bearer sk-abcdefghij")];
     req_body := Returned (JsonSample.doc "{'model': 'gemini-pro'}") |}.

Definition empty_model_request : Request :=
  {| req_method := str "POST";
     req_path := str "/gemini/v1beta/models/gemini-flash:generateContent";
     req_headers := [];
     req_body := Returned (JsonSample.doc "{'model': '', 'contents': []}") |}.

Definition model_in_body_request : Request :=
  {| req_method := str "POST";
     req_path := str "/gemini/v1beta/models/gemini-flash:generateContent";
     req_headers := [];
     req_body := Returned (JsonSample.doc "{'model': 'gemini-pro'}") |}.

Definition model_in_path_request : Request :=
  {| req_method := str "POST";
     req_path := str "/gemini/v1beta/models/gemini-flash:generateContent";
     req_headers := [];
     req_body := Returned (JsonSample.doc "{'contents': []}") |}.

(** A response body with both dialects, where [usageMetadata] has no
    [promptTokenCount]. *)
Definition both_usages_body : pystr :=
  JsonSample.doc
    "{'usage': {'prompt_tokens': 5, 'total_tokens': 7}, 'usageMetadata': {'totalTokenCount': 9}}".

Definition both_usages_items : list (pystr * pyval) :=
  [(str "usage", PDict [(str "prompt_tokens", PInt 5); (str "total_tokens", PInt 7)]);
   (str "usageMetadata", PDict [(str "totalTokenCount", PInt 9)])].

Definition two_credentials_request : Request :=
  {| req_method := str "POST";
     req_path := str "/v1/chat/completions";
     req_headers := [(str "authorization", str "Bearer sk-abcdefghij");
                     (str "x-api-key", str "other-key-123")];
     req_body := Returned (JsonSample.doc "{'model': 'gemini-pro'}") |}.

Definition sample_row : AiLogService.AILogValues :=
  {| AiLogService.method := Some (str "POST");
     AiLogService.path := Some (str "/v1/chat/completions");
     AiLogService.request_headers := Some (str "{}");
     AiLogService.request_body := Some [];
     AiLogService.status_code := Some 200;
     AiLogService.response_body := Some [];
     AiLogService.latency_ms := Some 12;
     AiLogService.model_name := PStr (str "gemini-pro");
     AiLogService.api_key := Some (str "sk-abc...efghij");
     AiLogService.request_time := Some 1700000000000000;
     AiLogService.prompt_tokens := PInt 3;
     AiLogService.completion_tokens := PInt 4;
     AiLogService.total_tokens := PInt 7;
     AiLogService.content_preview := Some (str "hello") |}.

(** A store with the rows 1 and 2 and a working engine. *)
Definition two_rows : AiLogService.World :=
  {| AiLogService.database :=
       {| AiLogService.table := <[1 := sample_row]> (<[2 := sample_row]> ∅);
          AiLogService.next_id := 3;
          AiLogService.engine_error := fun _ => None |};
     AiLogService.log := [];
     AiLogService.now := 1700000000000000 |}.

(** A store whose engine refuses every statement. *)
Definition engine_down : AiLogService.World :=
  {| AiLogService.database :=
       {| AiLogService.table := ∅;
          AiLogService.next_id := 1;
          AiLogService.engine_error := fun _ => Some (str "connection refused") |};
     AiLogService.log := [];
     AiLogService.now := 1700000000000000 |}.

(** A session cookie, and a check that accepts it. *)
Definition session_cookies : list (pystr * pystr) :=
  [(str "auth_token", str "valid-session")].

Definition verify_auth_token (token : pystr) : bool :=
  str_eqb token (str "valid-session").

(** The middleware with the sample collaborators. *)
Definition dispatch (request : Request) (call_next : Request -> outcome Response)
  : outcome (Response * option AiLogService.AILogValues) :=
  Middleware.dispatch JsonSample.json_loads JsonSample.json_dumps
    JsonSample.decode request call_next 1700000000000000 5.

End Examples.

(* ===================================================================== *)
(** * app/service/ai_log/ai_log_service.py: deleting all and old rows     *)
(* ===================================================================== *)

Module AiLogMaintenance.
Import AiLogService.

Definition AI_LOG_RETENTION_DAYS : Z := 3.

(** The statements of [delete_all_ai_logs] and [delete_old_ai_logs]:
    [select(func.count(AILog.id))] and [delete(AILog)], alone and with
    [where(AILog.request_time < cutoff_date)]. *)
Inductive Query : Type :=
| CountAll
| DeleteAll
| CountOlder (cutoff_date : Z)
| DeleteOlder (cutoff_date : Z).

(** A time stamp counts the microseconds from 0001-01-01T00:00, the
    first instant a [datetime] can hold; the last one is the end of the
    year 9999, 3,652,059 days later. *)
Definition DATETIME_END : Z := 3652059 * 86400000000.

(** [timedelta(days=days)]: at most 999,999,999 days either way. *)
Definition timedelta (days : Z) : outcome Z :=
  if Z.abs days >? 999999999 then Raised (str "OverflowError")
  else Returned (days * 86400000000).

(** [t - delta] for a [datetime] and a [timedelta]. *)
Definition datetime_sub (t delta : Z) : outcome Z :=
  let r := t - delta in
  if (r <? 0) || (DATETIME_END <=? r) then Raised (str "OverflowError")
  else Returned r.

(** [AILog.request_time < cutoff_date] on a row: a row without a time
    stamp is not selected. *)
Definition older (cutoff_date : Z) (row : AILogValues) : bool :=
  match request_time row with
  | Some t => t <? cutoff_date
  | None => false
  end.

(** [count or 0]. *)
Definition or_zero (count : Z) : Z := if count =? 0 then 0 else count.

Section Engine.

(** Modelled from the spec: the engine's verdict on these statements, as
    [engine_error] is for the statements of [AiLogService]. *)
Variable query_error : Query -> option pystr.

(** Modelled from the spec: [database.fetch_val(query)] for the two
    counts. *)
Definition fetch_val (query : Query) : block World Z :=
  db ← read database;
  match query_error query with
  | Some msg => raise msg
  | None =>
      match query with
      | CountAll => mret (Z.of_nat (size (table db)))
      | CountOlder cutoff_date =>
          mret (Z.of_nat
                  (size (filter (fun kv => older cutoff_date kv.2 = true)
                           (table db))))
      | _ => mret 0
      end
  end.

(** Modelled from the spec: [database.execute(query)] for the two
    deletes. *)
Definition execute_query (query : Query) : block World unit :=
  db ← read database;
  match query_error query with
  | Some msg => raise msg
  | None =>
      match query with
      | DeleteAll => set_table ∅ (next_id db)
      | DeleteOlder cutoff_date =>
          set_table (filter (fun kv => older cutoff_date kv.2 = false) (table db))
            (next_id db)
      | _ => mret tt
      end
  end.

Definition delete_all_ai_logs : block World Z :=
  try_except
    (let count_query := CountAll in
     count ← fetch_val count_query;
     let query := DeleteAll in
     execute_query query;;
     logger INFO (str "Deleted all AI logs, count: " ++ str_of_int count);;
     mret (or_zero count))
    (fun e =>
       logger ERROR (str "Failed to delete all AI logs: " ++ e);;
       raise e).

Definition delete_old_ai_logs (days : Z) : block World Z :=
  try_except
    (t ← read now;
     delta ← eval (timedelta days);
     cutoff_date ← eval (datetime_sub t delta);
     let count_query := CountOlder cutoff_date in
     count ← fetch_val count_query;
     if count =? 0 then
       logger INFO (str "No AI logs older than " ++ str_of_int days
                      ++ str " days to delete.");;
       mret 0
     else
       let query := DeleteOlder cutoff_date in
       execute_query query;;
       logger INFO (str "Deleted " ++ str_of_int count
                      ++ str " AI logs older than " ++ str_of_int days
                      ++ str " days.");;
       mret (or_zero count))
    (fun e =>
       logger ERROR (str "Failed to delete old AI logs: " ++ e);;
       raise e).

End Engine.

End AiLogMaintenance.

(* ===================================================================== *)
(** * app/router/ai_log_routes.py: the bulk routes                        *)
(* ===================================================================== *)

Module AiLogBulkRoutes.
Import AiLogService AiLogRoutes.

(** [str(ids)] for a list of integers, as an f-string renders it. *)
Definition str_of_ints (ids : list Z) : pystr :=
  str "[" ++ join (str ", ") (map str_of_int ids) ++ str "]".

Section Security.

Variable verify_auth_token : pystr -> bool.
Variable query_error : AiLogMaintenance.Query -> option pystr.

(** [DELETE /api/ai-logs] with the body [payload], a dictionary of lists
    of integers. The 400 is raised before the [try]. *)
Definition delete_ai_logs_bulk_api (cookies : list (pystr * pystr))
    (payload : list (pystr * list Z)) : block World RouteResult :=
  let auth_token := dict_lookup cookies (str "auth_token") in
  if rejected verify_auth_token auth_token then
    logger WARNING (str "Unauthorized access attempt to bulk delete AI logs");;
    mret (HTTPException 401 (str "Not authenticated"))
  else
    match dict_lookup payload (str "ids") with
    | None | Some [] =>
        mret (HTTPException 400 (str "No log IDs provided for deletion."))
    | Some log_ids =>
        try_except
          (deleted_count ← delete_ai_logs_by_ids log_ids;
           logger INFO (str "Bulk deleted " ++ str_of_int deleted_count
                          ++ str " AI logs with IDs: " ++ str_of_ints log_ids);;
           mret (ResponseStatus HTTP_204_NO_CONTENT))
          (fun e =>
             logger ERROR (str "Error bulk deleting AI logs with IDs "
                             ++ str_of_ints log_ids ++ str ": " ++ e);;
             mret (HTTPException 500
                     (str "Internal server error during bulk deletion")))
    end.

(** [DELETE /api/ai-logs/all]. *)
Definition delete_all_ai_logs_api (cookies : list (pystr * pystr))
  : block World RouteResult :=
  let auth_token := dict_lookup cookies (str "auth_token") in
  if rejected verify_auth_token auth_token then
    logger WARNING (str "Unauthorized access attempt to delete all AI logs");;
    mret (HTTPException 401 (str "Not authenticated"))
  else
    try_except
      (deleted_count ← AiLogMaintenance.delete_all_ai_logs query_error;
       logger INFO (str "Successfully deleted all AI logs. Count: "
                      ++ str_of_int deleted_count);;
       mret (ResponseStatus HTTP_204_NO_CONTENT))
      (fun e =>
         logger ERROR (str "Error deleting all AI logs: " ++ e);;
         mret (HTTPException 500
                 (str "Internal server error during deletion of all logs"))).

End Security.

End AiLogBulkRoutes.

(* ===================================================================== *)
(** * app/service/ai_log/ai_log_service.py: listing and counting          *)
(* ===================================================================== *)

Module AiLogListing.
Import AiLogService.

(** The [where] clauses of [get_ai_logs] and [get_ai_logs_count]. *)
Inductive Condition : Type :=
| ModelIlike (pattern : pystr)
| StatusEq (code : Z)
| TimeGe (start_date : Z)
| TimeLe (end_date : Z).

(** The two [select] statements: the nine listed columns with their
    clauses, [order_by], [limit] and [offset]; and [func.count(AILog.id)]
    with its clauses. *)
Inductive Select : Type :=
| SelectRows (clauses : list Condition) (sort_by : pystr) (ascending : bool)
    (limit offset : Z)
| SelectCount (clauses : list Condition).

(** A row of the listing: the nine columns that [get_ai_logs] selects. *)
Record ListRow : Type := {
  id : Z;
  model_name : pyval;
  request_time : option Z;
  content_preview : option pystr;
  prompt_tokens : pyval;
  completion_tokens : pyval;
  total_tokens : pyval;
  status_code : option Z;
  latency_ms : option Z;
}.

Definition listed (kv : Z * AILogValues) : ListRow :=
  {| id := kv.1;
     model_name := AiLogService.model_name kv.2;
     request_time := AiLogService.request_time kv.2;
     content_preview := AiLogService.content_preview kv.2;
     prompt_tokens := AiLogService.prompt_tokens kv.2;
     completion_tokens := AiLogService.completion_tokens kv.2;
     total_tokens := AiLogService.total_tokens kv.2;
     status_code := AiLogService.status_code kv.2;
     latency_ms := AiLogService.latency_ms kv.2 |}.

Section Engine.

(** Modelled from the spec: what the engine and Python's [int] decide.
    [ilike pattern v] is the engine's [ILIKE] on a [model_name];
    [order_rows sort_by ascending] is its [ORDER BY] on the column that
    [getattr(AILog, sort_by, AILog.id)] names; [select_error] is its
    verdict on a statement; [int_of_str] is [int(s)], [None] where it
    raises [ValueError]. [limit] and [offset] are taken as not
    negative. *)
Variable ilike : pystr -> pyval -> bool.
Variable order_rows :
  pystr -> bool -> list (Z * AILogValues) -> list (Z * AILogValues).
Variable select_error : Select -> option pystr.
Variable int_of_str : pystr -> option Z.

(** A clause on a row; a comparison with a missing value selects
    nothing. *)
Definition holds (row : AILogValues) (c : Condition) : bool :=
  match c with
  | ModelIlike pattern => ilike pattern (AiLogService.model_name row)
  | StatusEq code =>
      match AiLogService.status_code row with
      | Some s => s =? code
      | None => false
      end
  | TimeGe start_date =>
      match AiLogService.request_time row with
      | Some t => start_date <=? t
      | None => false
      end
  | TimeLe end_date =>
      match AiLogService.request_time row with
      | Some t => t <=? end_date
      | None => false
      end
  end.

Definition selected (clauses : list Condition) (t : gmap Z AILogValues)
  : list (Z * AILogValues) :=
  List.filter (fun kv => forallb (holds kv.2) clauses) (map_to_list t).

(** Modelled from the spec: [database.fetch_all(query)]. *)
Definition fetch_all (query : Select) : block World (list ListRow) :=
  db ← read database;
  match select_error query with
  | Some msg => raise msg
  | None =>
      match query with
      | SelectRows clauses sort_by ascending limit offset =>
          mret (map listed
                  (take (Z.to_nat limit)
                     (drop (Z.to_nat offset)
                        (order_rows sort_by ascending
                           (selected clauses (table db))))))
      | SelectCount _ => mret []
      end
  end.

(** Modelled from the spec: [database.fetch_val(query)] for the count. *)
Definition fetch_val (query : Select) : block World Z :=
  db ← read database;
  match select_error query with
  | Some msg => raise msg
  | None =>
      match query with
      | SelectCount clauses => mret (len (selected clauses (table db)))
      | SelectRows _ _ _ _ _ => mret 0
      end
  end.

Definition get_ai_logs (limit offset : Z)
    (model_search status_code_search : option pystr)
    (start_date end_date : option Z) (sort_by sort_order : pystr)
  : block World (list ListRow) :=
  try_except
    (let query := [] in
     let query :=
       match model_search with
       | Some (c :: s) => query ++ [ModelIlike (str "%" ++ (c :: s) ++ str "%")]
       | _ => query
       end in
     let query :=
       match status_code_search with
       | Some (c :: s) =>
           match int_of_str (c :: s) with
           | Some code => query ++ [StatusEq code]
           | None => query
           end
       | _ => query
       end in
     let query :=
       match start_date with
       | Some d => query ++ [TimeGe d]
       | None => query
       end in
     let query :=
       match end_date with
       | Some d => query ++ [TimeLe d]
       | None => query
       end in
     let ascending := str_eqb (lower sort_order) (str "asc") in
     result ← fetch_all (SelectRows query sort_by ascending limit offset);
     mret result)
    (fun e =>
       logger ERROR (str "Failed to get AI logs: " ++ e);;
       raise e).

Definition get_ai_logs_count (model_search status_code_search : option pystr)
    (start_date end_date : option Z) : block World Z :=
  try_except
    (let query := [] in
     let query :=
       match model_search with
       | Some (c :: s) => query ++ [ModelIlike (str "%" ++ (c :: s) ++ str "%")]
       | _ => query
       end in
     let query :=
       match status_code_search with
       | Some (c :: s) =>
           match int_of_str (c :: s) with
           | Some code => query ++ [StatusEq code]
           | None => query
           end
       | _ => query
       end in
     let query :=
       match start_date with
       | Some d => query ++ [TimeGe d]
       | None => query
       end in
     let query :=
       match end_date with
       | Some d => query ++ [TimeLe d]
       | None => query
       end in
     result ← fetch_val (SelectCount query);
     mret (AiLogMaintenance.or_zero result))
    (fun e =>
       logger ERROR (str "Failed to get AI logs count: " ++ e);;
       raise e).

End Engine.

End AiLogListing.

(* ===================================================================== *)
(** * Shapes that the properties speak of                                 *)
(* ===================================================================== *)

Module Shapes.

(** White space reduced to single spaces: no white-space character but
    the space, no space first, and no space after a space. [after_space]
    says whether the previous character was a space (or there is none). *)
Fixpoint single_spaced (after_space : bool) (t : pystr) : bool :=
  match t with
  | [] => true
  | c :: r =>
      if (c =? 32)%N then negb after_space && single_spaced true r
      else negb (isspace c) && single_spaced false r
  end.


(** The values of [kw] with the time stamp [t]. *)
Definition with_request_time (kw : AiLogService.AILogValues) (t : Z)
  : AiLogService.AILogValues :=
  {| AiLogService.method := AiLogService.method kw;
     AiLogService.path := AiLogService.path kw;
     AiLogService.request_headers := AiLogService.request_headers kw;
     AiLogService.request_body := AiLogService.request_body kw;
     AiLogService.status_code := AiLogService.status_code kw;
     AiLogService.response_body := AiLogService.response_body kw;
     AiLogService.latency_ms := AiLogService.latency_ms kw;
     AiLogService.model_name := AiLogService.model_name kw;
     AiLogService.api_key := AiLogService.api_key kw;
     AiLogService.request_time := Some t;
     AiLogService.prompt_tokens := AiLogService.prompt_tokens kw;
     AiLogService.completion_tokens := AiLogService.completion_tokens kw;
     AiLogService.total_tokens := AiLogService.total_tokens kw;
     AiLogService.content_preview := AiLogService.content_preview kw |}.

(** More rows for the store examples: row 1 is four days old and row 2
    one hour old at the time of [Examples.two_rows]. *)
Definition row_at (t : Z) : AiLogService.AILogValues :=
  {| AiLogService.method := Some (str "POST");
     AiLogService.path := Some (str "/v1/chat/completions");
     AiLogService.request_headers := Some (str "{}");
     AiLogService.request_body := Some [];
     AiLogService.status_code := Some 200;
     AiLogService.response_body := Some [];
     AiLogService.latency_ms := Some 12;
     AiLogService.model_name := PStr (str "gemini-pro");
     AiLogService.api_key := None;
     AiLogService.request_time := Some t;
     AiLogService.prompt_tokens := PNone;
     AiLogService.completion_tokens := PNone;
     AiLogService.total_tokens := PNone;
     AiLogService.content_preview := None |}.

Definition old_and_new : AiLogService.World :=
  {| AiLogService.database :=
       {| AiLogService.table :=
            <[1 := row_at (1700000000000000 - 4 * 86400000000)]>
              (<[2 := row_at (1700000000000000 - 3600000000)]> ∅);
          AiLogService.next_id := 3;
          AiLogService.engine_error := fun _ => None |};
     AiLogService.log := [];
     AiLogService.now := 1700000000000000 |}.

Definition no_query_error (_ : AiLogMaintenance.Query) : option pystr := None.

Definition query_down (_ : AiLogMaintenance.Query) : option pystr :=
  Some (str "connection refused").

(** An engine for the listing examples: [ILIKE] as the containment of
    the text between the two percent signs in a string [model_name]
    (case-sensitive, no wild card inside), rows left in the order of the
    table, no error; and [int] on plain ASCII digits. *)
Definition sample_ilike (pattern : pystr) (v : pyval) : bool :=
  match v with
  | PStr s => contains s (take (length pattern - 2) (drop 1 pattern))
  | _ => false
  end.

Definition sample_order (_ : pystr) (_ : bool)
    (rows : list (Z * AiLogService.AILogValues))
  : list (Z * AiLogService.AILogValues) := rows.

Definition no_select_error (_ : AiLogListing.Select) : option pystr := None.

Definition sample_int (s : pystr) : option Z :=
  if forallb JsonSample.is_digit s then Some (JsonSample.digits_value s)
  else None.

(** A request outside the monitored prefixes. *)
Definition health_request : Request :=
  {| req_method := str "GET";
     req_path := str "/health";
     req_headers := [(str "x-api-key", str "other-key-123")];
     req_body := Returned [] |}.

End Shapes.

(* ===================================================================== *)
(** * Properties of the Python runtime model                              *)
(* ===================================================================== *)

Lemma len_nonneg {A} (s : list A) : 0 <= len s.
Proof. unfold len. lia. Qed.

Lemma len_app {A} (s t : list A) : len (s ++ t) = len s + len t.
Proof. unfold len. rewrite length_app. lia. Qed.

Lemma slice_to_take {A} (j : Z) (s : list A) :
  0 <= j -> slice_to j s = take (Z.to_nat j) s.
Proof.
  intros Hj. unfold slice_to.
  destruct (Z.ltb_spec j 0); [lia | reflexivity].
Qed.

Lemma slice_from_last {A} (n : nat) (s : list A) :
  (0 < n)%nat -> slice_from (- Z.of_nat n) s = drop (length s - n) s.
Proof.
  intros Hn. unfold slice_from, len.
  destruct (Z.ltb_spec (- Z.of_nat n) 0); [| lia].
  f_equal. lia.
Qed.

Lemma startswith_spec (s p : pystr) :
  startswith s p = true <-> exists q, s = p ++ q.
Proof.
  revert s. induction p as [| c p IH]; intros s; simpl.
  - split; [intros _; by exists s | by destruct s].
  - destruct s as [| d s].
    + split; [done | intros [q Hq]; discriminate].
    + simpl. rewrite andb_true_iff, N.eqb_eq, IH. split.
      * intros [-> [q ->]]. by exists q.
      * intros [q Hq]. injection Hq as -> ->. split; [done | by exists q].
Qed.

Lemma contains_spec (s p : pystr) :
  contains s p = true <-> exists a b, s = a ++ p ++ b.
Proof.
  induction s as [| d s IH].
  - cbn [contains]. rewrite orb_false_r, startswith_spec. split.
    + intros [q Hq]. by exists [], q.
    + intros [a [b Hab]]. destruct a; [by exists b | discriminate].
  - cbn [contains]. rewrite orb_true_iff, startswith_spec, IH. split.
    + intros [[q Hq] | [a [b Hab]]].
      * by exists [], q.
      * exists (d :: a), b. by rewrite Hab.
    + intros [a [b Hab]]. destruct a as [| e a].
      * left. by exists b.
      * right. injection Hab as -> ->. by exists a, b.
Qed.

Lemma uint_digits_inj (u v : Decimal.uint) :
  uint_digits u = uint_digits v -> u = v.
Proof.
  revert v. induction u; intros v H; destruct v; simpl in H;
    try discriminate; try reflexivity;
    injection H as H; f_equal; auto.
Qed.

Lemma uint_digits_no_sign (u v : Decimal.uint) :
  uint_digits u <> 45%N :: uint_digits v.
Proof. destruct u; simpl; discriminate. Qed.

(** The decimal rendering of an integer determines the integer. *)
Lemma str_of_int_inj (n m : Z) : str_of_int n = str_of_int m -> n = m.
Proof.
  unfold str_of_int. intros H.
  rewrite <- (DecimalZ.of_to n), <- (DecimalZ.of_to m).
  destruct (Z.to_int n) as [u | u], (Z.to_int m) as [v | v].
  - by rewrite (uint_digits_inj _ _ H).
  - by destruct (uint_digits_no_sign u v).
  - symmetry in H. by destruct (uint_digits_no_sign v u).
  - injection H as H. by rewrite (uint_digits_inj _ _ H).
Qed.


(* ===================================================================== *)
(** * truncate_body                                                       *)
(* ===================================================================== *)

Lemma truncation_marker_length (n : Z) :
  len (truncation_marker n) = 15 + len (str_of_int n).
Proof.
  unfold truncation_marker. rewrite !len_app.
  change (len [10%N]) with 1. change (len (str "... (")) with 5.
  change (len [25130%N; 26029%N; 65292%N; 20849%N]) with 4.
  change (len (str " ")) with 1.
  change (len [23383%N; 31526%N]) with 2.
  change (len (str ")")) with 1. lia.
Qed.

Lemma truncation_marker_inj (n m : Z) :
  truncation_marker n = truncation_marker m -> n = m.
Proof.
  unfold truncation_marker. intros H.
  do 4 apply app_inv_head in H.
  apply app_inv_tail in H. by apply str_of_int_inj.
Qed.

(** C3, as the code has it. A body of at most 50,000 characters is stored
    as it is. A longer one is stored as its first 50,000 characters
    followed by the marker, which states the original number of
    characters (the marker determines that number); the stored value is
    then longer than 50,000 characters by the length of the marker, that
    is by 15 characters and the digits of the count. *)
Theorem truncate_body_spec (data : pystr) :
  (len data <= MAX_BODY_LENGTH ->
     truncate_body data MAX_BODY_LENGTH = data) /\
  (MAX_BODY_LENGTH < len data ->
     truncate_body data MAX_BODY_LENGTH
       = take (Z.to_nat MAX_BODY_LENGTH) data ++ truncation_marker (len data) /\
     len (take (Z.to_nat MAX_BODY_LENGTH) data) = 50000 /\
     len (truncate_body data MAX_BODY_LENGTH)
       = MAX_BODY_LENGTH + 15 + len (str_of_int (len data)) /\
     (forall n, truncation_marker n = truncation_marker (len data) ->
                n = len data)).
Proof.
  unfold truncate_body, MAX_BODY_LENGTH. split; intros H.
  - destruct (Z.gtb_spec (len data) 50000); [lia | reflexivity].
  - destruct (Z.gtb_spec (len data) 50000); [| lia].
    rewrite slice_to_take by lia.
    assert (Hlen : len (take (Z.to_nat 50000) data) = 50000).
    { unfold len in *. rewrite length_take. lia. }
    repeat split.
    + exact Hlen.
    + rewrite len_app, Hlen, truncation_marker_length. lia.
    + intros n Hn. by apply truncation_marker_inj.
Qed.

Lemma truncate_body_spec_witness :
  truncate_body (str "hello") MAX_BODY_LENGTH = str "hello" /\
  len (truncate_body (replicate (Z.to_nat 50001) 97%N) MAX_BODY_LENGTH)
    = MAX_BODY_LENGTH + 15 + len (str_of_int (len (replicate (Z.to_nat 50001) 97%N))).
Proof.
  split.
  - apply (proj1 (truncate_body_spec (str "hello"))).
    vm_compute. discriminate.
  - apply (proj2 (truncate_body_spec (replicate (Z.to_nat 50001) 97%N))).
    vm_compute. reflexivity.
Defined.

(** C3, as the claim states it, fails: a body of 50,001 characters is
    stored in 50,020 characters. *)
Lemma truncate_body_exceeds_cap :
  len (replicate (Z.to_nat 50001) 97%N) = 50001 /\
  len (truncate_body (replicate (Z.to_nat 50001) 97%N) MAX_BODY_LENGTH) = 50020.
Proof. split; vm_compute; reflexivity. Qed.

(* ===================================================================== *)
(** * redact_api_key                                                      *)
(* ===================================================================== *)

(** The two shapes of a masked key. *)
Lemma redact_api_key_short (k : pystr) :
  6 < len k <= 12 ->
  redact_api_key (Some k)
    = Some (take 3 k ++ str "..." ++ drop (length k - 3) k).
Proof.
  intros H. unfold redact_api_key.
  destruct k as [| c k]; [unfold len in H; simpl in H; lia |].
  destruct (Z.leb_spec (len (c :: k)) 12); [| lia].
  destruct (Z.gtb_spec (len (c :: k)) 6); [| lia].
  rewrite slice_to_take by lia.
  by rewrite (slice_from_last 3) by lia.
Qed.

Lemma redact_api_key_long (k : pystr) :
  12 < len k ->
  redact_api_key (Some k)
    = Some (take 6 k ++ str "..." ++ drop (length k - 6) k).
Proof.
  intros H. unfold redact_api_key.
  destruct k as [| c k]; [unfold len in H; simpl in H; lia |].
  destruct (Z.leb_spec (len (c :: k)) 12); [lia |].
  rewrite slice_to_take by lia.
  by rewrite (slice_from_last 6) by lia.
Qed.

(** C4. [redact_api_key] is a function of its argument alone, defined on
    every input: [None] and the empty string give [None]; a key of 1 to 6
    characters gives the constant mask; a key of 7 to 12 characters gives
    its first 3 characters, three dots and its last 3 characters; a longer
    key gives its first 6 characters, three dots and its last 6. *)
Theorem redact_api_key_spec (key : option pystr) :
  (key = None \/ key = Some [] -> redact_api_key key = None) /\
  (forall s, key = Some s -> 0 < len s <= 6 ->
     redact_api_key key = Some (str "***")) /\
  (forall s, key = Some s -> 6 < len s <= 12 ->
     redact_api_key key
       = Some (take 3 s ++ str "..." ++ drop (length s - 3) s)) /\
  (forall s, key = Some s -> 12 < len s ->
     redact_api_key key
       = Some (take 6 s ++ str "..." ++ drop (length s - 6) s)).
Proof.
  repeat split.
  - by intros [-> | ->].
  - intros s -> H. unfold redact_api_key.
    destruct s as [| c s]; [unfold len in H; simpl in H; lia |].
    destruct (Z.leb_spec (len (c :: s)) 12); [| lia].
    by destruct (Z.gtb_spec (len (c :: s)) 6); [lia |].
  - intros s -> H. by apply redact_api_key_short.
  - intros s -> H. by apply redact_api_key_long.
Qed.

Lemma redact_api_key_spec_witness :
  redact_api_key None = None /\
  redact_api_key (Some (str "secret")) = Some (str "***") /\
  redact_api_key (Some (str "sk-12345")) = Some (str "sk-...345") /\
  redact_api_key (Some (str "sk-abcdefghij")) = Some (str "sk-abc...efghij").
Proof.
  split; [| split; [| split]].
  - apply (proj1 (redact_api_key_spec None)). by left.
  - apply (proj1 (proj2 (redact_api_key_spec (Some (str "secret")))) (str "secret"));
      [reflexivity | by vm_compute].
  - apply (proj1 (proj2 (proj2 (redact_api_key_spec (Some (str "sk-12345")))))
             (str "sk-12345")); [reflexivity | by vm_compute].
  - apply (proj2 (proj2 (proj2 (redact_api_key_spec (Some (str "sk-abcdefghij")))))
             (str "sk-abcdefghij")); [reflexivity | by vm_compute].
Defined.





(* ===================================================================== *)
(** * The credential read from the request headers                        *)
(* ===================================================================== *)

Lemma scan_header_keeps_api_key (st : HeaderScan) (kv : pystr * pystr) :
  assigns_api_key kv = false ->
  scanned_api_key (scan_header st kv) = scanned_api_key st.
Proof.
  destruct kv as [k v]. unfold assigns_api_key, scan_header. simpl.
  intros H. apply orb_false_iff in H as [H1 H2]. rewrite H1, H2.
  by repeat case_match.
Qed.

Lemma scan_header_bearer (st : HeaderScan) (k token : pystr) :
  lower k = str "authorization" ->
  scanned_api_key (scan_header st (k, str "Bearer " ++ token)) = Some token.
Proof.
  intros Hk. unfold scan_header. rewrite Hk.
  change (str_in (str "authorization") important_headers) with true.
  change (str_in (str "authorization") [str "authorization"; str "x-api-key"])
    with true.
  change (str_eqb (str "authorization") (str "authorization")) with true.
  cbv iota.
  assert (Hsw : startswith (str "Bearer " ++ token) (str "Bearer ") = true).
  { apply startswith_spec. by exists token. }
  rewrite Hsw. cbn [andb scanned_api_key].
  reflexivity.
Qed.

Lemma fold_scan_keeps_api_key (after : list (pystr * pystr)) (st : HeaderScan) :
  forallb (fun kv => negb (assigns_api_key kv)) after = true ->
  scanned_api_key (fold_left scan_header after st) = scanned_api_key st.
Proof.
  revert st. induction after as [| kv after IH]; intros st H; [done |].
  simpl in H. apply andb_true_iff in H as [Hkv H].
  cbn [fold_left]. rewrite IH by done.
  apply scan_header_keeps_api_key. by destruct (assigns_api_key kv).
Qed.

Section Dispatch.

Variable json_loads : pystr -> outcome pyval.
Variable json_dumps : list (pystr * pystr) -> pystr.
Variable decode : pybytes -> pystr.

(** When [dispatch] creates a task, the path is monitored, the handler
    has returned, the task carries [save_log_arguments], and the response
    is the one rebuilt from the handler's. *)
Lemma dispatch_task_inv (request : Request) (call_next : Request -> outcome Response)
    (request_time duration_ms : Z) (returned : Response)
    (task : AiLogService.AILogValues) :
  dispatch json_loads json_dumps decode request call_next request_time duration_ms
    = Returned (returned, Some task) ->
  should_monitor (req_path request) = true /\
  exists response,
    call_next (forwarded_request request
                 (read_request_body json_loads decode request).1.1)
      = Returned response /\
    task = save_log_arguments json_loads json_dumps decode request response
             request_time duration_ms /\
    returned = {| status_code := status_code response;
                  headers := dict_of_headers (headers response);
                  body_iterator := [concat (body_iterator response)];
                  media_type := media_type response |}.
Proof.
  unfold dispatch.
  destruct (should_monitor (req_path request)); simpl.
  - destruct (read_request_body json_loads decode request) as [[body ?] ?].
    simpl. destruct (call_next _) as [response | e]; [| discriminate].
    intros H. injection H as <- <-. split; [done |]. by exists response.
  - destruct (call_next request); discriminate.
Qed.

Lemma save_log_arguments_api_key (request : Request) (response : Response)
    (request_time duration_ms : Z) :
  AiLogService.api_key
    (save_log_arguments json_loads json_dumps decode request response
       request_time duration_ms)
  = redact_api_key (scanned_api_key (scan_headers (req_headers request))).
Proof.
  unfold save_log_arguments.
  destruct (read_request_body json_loads decode request) as [[? ?] ?].
  by destruct (extract_tokens_from_response json_loads _) as [[? ?] ?].
Qed.

(** C2, as the code has it. The [api_key] of the task that [dispatch]
    creates is [redact_api_key] applied to the credential the header loop
    ended with. When an [authorization] line [Bearer <token>] is the last
    line on which the loop assigns the credential (no [x-api-key] line and
    no further [authorization: Bearer] line comes after it), that is the
    redaction of the token alone, without the prefix. *)
Theorem dispatch_api_key_redacted (request : Request)
    (call_next : Request -> outcome Response) (request_time duration_ms : Z)
    (returned : Response) (task : AiLogService.AILogValues) :
  dispatch json_loads json_dumps decode request call_next request_time duration_ms
    = Returned (returned, Some task) ->
  AiLogService.api_key task
    = redact_api_key (scanned_api_key (scan_headers (req_headers request))) /\
  (forall before k token after,
     req_headers request = before ++ (k, str "Bearer " ++ token) :: after ->
     lower k = str "authorization" ->
     forallb (fun kv => negb (assigns_api_key kv)) after = true ->
     AiLogService.api_key task = redact_api_key (Some token)).
Proof.
  intros H. apply dispatch_task_inv in H as [_ [response [_ [-> _]]]].
  rewrite save_log_arguments_api_key. split; [done |].
  intros before k token after Hh Hk Hafter. f_equal.
  unfold scan_headers. rewrite Hh, fold_left_app. cbn [fold_left].
  rewrite fold_scan_keeps_api_key by done.
  by apply scan_header_bearer.
Qed.

End Dispatch.

Lemma dispatch_api_key_redacted_witness :
  exists returned task,
    Examples.dispatch Examples.bearer_request Examples.plain_handler
      = Returned (returned, Some task) /\
    AiLogService.api_key task = redact_api_key (Some (str "sk-abcdefghij")).
Proof.
  destruct (Examples.dispatch Examples.bearer_request Examples.plain_handler)
    as [[returned [task |]] | e] eqn:H;
    try (vm_compute in H; discriminate).
  exists returned, task. split; [reflexivity |].
  exact (proj2 (dispatch_api_key_redacted _ _ _ _ _ _ _ _ _ H)
           [(str "content-type", str "application/json")]
           (str "Authorization") (str "sk-abcdefghij") []
           eq_refl eq_refl eq_refl).
Defined.

(** C2, as the claim states it, fails: with an [x-api-key] line after the
    [authorization: Bearer] line, the stored credential is the redaction
    of the [x-api-key] value, not of the bearer token. *)
Lemma dispatch_api_key_last_line_wins :
  exists returned task,
    Examples.dispatch Examples.two_credentials_request Examples.plain_handler
      = Returned (returned, Some task) /\
    AiLogService.api_key task = Some (str "other-...ey-123") /\
    redact_api_key (Some (str "sk-abcdefghij")) = Some (str "sk-abc...efghij").
Proof.
  eexists _, _. split; [by vm_compute |]. by vm_compute.
Qed.

(* ===================================================================== *)
(** * The model name                                                      *)
(* ===================================================================== *)

Lemma name_char_spec (c : N) : name_char c = true <-> c <> 47%N /\ c <> 58%N.
Proof.
  unfold name_char. rewrite negb_true_iff, orb_false_iff, !N.eqb_neq. tauto.
Qed.

Lemma name_run_app (name rest : pystr) :
  Forall (fun c => c <> 47%N /\ c <> 58%N) name ->
  (forall c r, rest = c :: r -> c = 47%N \/ c = 58%N) ->
  name_run (name ++ rest) = name.
Proof.
  intros Hname Hrest. induction Hname as [| c name Hc _ IH]; simpl.
  - destruct rest as [| c r]; [done |]. simpl.
    destruct (name_char c) eqn:E; [| done].
    apply name_char_spec in E. destruct (Hrest c r eq_refl); tauto.
  - apply name_char_spec in Hc. by rewrite Hc, IH.
Qed.

Lemma name_run_split (s : pystr) :
  Forall (fun c => c <> 47%N /\ c <> 58%N) (name_run s) /\
  exists rest, s = name_run s ++ rest /\
               (forall c r, rest = c :: r -> c = 47%N \/ c = 58%N).
Proof.
  induction s as [| c s [IH1 [rest [IH2 IH3]]]]; simpl.
  - split; [constructor |]. exists []. split; [done | discriminate].
  - destruct (name_char c) eqn:E.
    + split; [constructor; [by apply name_char_spec | done] |].
      exists rest. split; [simpl; by f_equal | done].
    + split; [constructor |]. exists (c :: s). split; [done |].
      intros c' r [= <- <-]. unfold name_char in E.
      apply negb_false_iff, orb_true_iff in E as [E | E];
        apply N.eqb_eq in E; tauto.
Qed.

(** The single-position matcher finds exactly the segments of the
    specification. *)
Lemma match_here_spec (s name : pystr) :
  match_here s = Some name <-> spec_models_segment s name.
Proof.
  unfold match_here, spec_models_segment. split.
  - destruct (startswith s (str "/models/")) eqn:Hsw; [| discriminate].
    apply startswith_spec in Hsw as [t ->].
    change (slice_from 8 (str "/models/" ++ t)) with t.
    destruct (name_run_split t) as [Hall [rest [Ht Hrest]]].
    destruct (name_run t) as [| c name'] eqn:E; [discriminate |].
    intros [= <-]. split; [discriminate |]. split; [done |].
    exists rest. by rewrite Ht at 1.
  - intros [Hne [Hall [rest [-> Hrest]]]].
    assert (Hsw : startswith (str "/models/" ++ name ++ rest) (str "/models/") = true).
    { apply startswith_spec. by eexists. }
    rewrite Hsw.
    change (slice_from 8 (str "/models/" ++ name ++ rest)) with (name ++ rest).
    rewrite name_run_app by done. by destruct name.
Qed.

(** [re.search] returns the segment at the leftmost position that has
    one. *)
Lemma re_search_spec (s name : pystr) :
  re_search s = Some name <->
  exists i : nat,
    spec_models_segment (drop i s) name /\
    forall (j : nat) n, (j < i)%nat -> ~ spec_models_segment (drop j s) n.
Proof.
  induction s as [| c s IH].
  - cbn [re_search]. destruct (match_here []) as [n |] eqn:E.
    + vm_compute in E. discriminate.
    + split; [discriminate |]. intros [i [Hi _]].
      rewrite drop_nil in Hi. apply match_here_spec in Hi. congruence.
  - cbn [re_search]. destruct (match_here (c :: s)) as [n |] eqn:E.
    + split.
      * intros [= <-]. exists 0%nat. split; [by apply match_here_spec | lia].
      * intros [i [Hi Hmin]]. destruct i as [| i].
        { apply match_here_spec in Hi. simpl in Hi. congruence. }
        destruct (Hmin 0%nat n); [lia | by apply match_here_spec].
    + rewrite IH. split.
      * intros [i [Hi Hmin]]. exists (S i). split; [done |].
        intros [| j] n Hj.
        { rewrite <- match_here_spec. simpl. congruence. }
        apply Hmin. lia.
      * intros [[| i] [Hi Hmin]].
        { apply match_here_spec in Hi. simpl in Hi. congruence. }
        exists i. split; [done |]. intros j n Hj. apply (Hmin (S j)). lia.
Qed.

Lemma re_search_none (s : pystr) :
  re_search s = None <-> forall (i : nat) n, ~ spec_models_segment (drop i s) n.
Proof.
  split.
  - intros H i n Hi.
    assert (Hex : exists k : nat, spec_models_segment (drop k s) n) by eauto.
    clear Hi. revert H Hex. induction s as [| c s IH]; cbn [re_search].
    + intros _ [k Hk]. rewrite drop_nil in Hk. apply match_here_spec in Hk.
      vm_compute in Hk. discriminate.
    + destruct (match_here (c :: s)) as [m |] eqn:E; [discriminate |].
      intros H [[| k] Hk].
      * apply match_here_spec in Hk. simpl in Hk. congruence.
      * apply IH; [done | by exists k].
  - intros H. destruct (re_search s) as [n |] eqn:E; [| done].
    apply re_search_spec in E as [i [Hi _]]. by destruct (H i n).
Qed.

Section ModelName.

Variable json_loads : pystr -> outcome pyval.
Variable json_dumps : list (pystr * pystr) -> pystr.
Variable decode : pybytes -> pystr.

Lemma save_log_arguments_model_name (request : Request) (response : Response)
    (request_time duration_ms : Z) :
  AiLogService.model_name
    (save_log_arguments json_loads json_dumps decode request response
       request_time duration_ms)
  = (read_request_body json_loads decode request).2.
Proof.
  unfold save_log_arguments.
  destruct (read_request_body json_loads decode request) as [[? ?] ?].
  by destruct (extract_tokens_from_response json_loads _) as [[? ?] ?].
Qed.

Lemma read_request_body_from_body (request : Request) (body : pybytes)
    (items : list (pystr * pyval)) (X : pystr) :
  req_body request = Returned body -> body <> [] ->
  json_loads (decode body) = Returned (PDict items) ->
  dict_lookup items (str "model") = Some (PStr X) -> X <> [] ->
  (read_request_body json_loads decode request).2 = PStr X.
Proof.
  intros Hbody Hne Hjson Hmodel HX. unfold read_request_body.
  rewrite Hbody. destruct body as [| b body]; [done |].
  unfold extract_model_from_body. rewrite Hjson. cbn [get]. rewrite Hmodel.
  cbn. by destruct X.
Qed.

Lemma read_request_body_from_path (request : Request) :
  (forall body, req_body request = Returned body -> body <> [] ->
     truthy (extract_model_from_body json_loads (decode body)) = false) ->
  (read_request_body json_loads decode request).2
  = match extract_model_from_path (req_path request) with
    | Some name => PStr name
    | None => PNone
    end.
Proof.
  intros H. unfold read_request_body.
  destruct (req_body request) as [[| b body] | e]; cbn; try done.
  by rewrite (H (b :: body)).
Qed.

(** C6, as the code has it. A body that is a JSON object whose [model]
    is a non-empty string [X] gives [X], whatever the path. When the body
    yields no model (no body, no JSON object, no [model], or a [model]
    that is null, empty or otherwise false), the model is the name of the
    leftmost [/models/<name>] segment of the path, where the name stops
    before the next slash or colon, and there is none exactly when the
    path has no such segment. *)
Theorem model_name_resolution (request : Request) (response : Response)
    (request_time duration_ms : Z) :
  let resolved :=
    AiLogService.model_name
      (save_log_arguments json_loads json_dumps decode request response
         request_time duration_ms) in
  (forall body items X,
     req_body request = Returned body -> body <> [] ->
     json_loads (decode body) = Returned (PDict items) ->
     dict_lookup items (str "model") = Some (PStr X) -> X <> [] ->
     resolved = PStr X) /\
  ((forall body, req_body request = Returned body -> body <> [] ->
      truthy (extract_model_from_body json_loads (decode body)) = false) ->
   (forall name,
      resolved = PStr name <->
      exists i : nat,
        spec_models_segment (drop i (req_path request)) name /\
        forall (j : nat) n, (j < i)%nat ->
          ~ spec_models_segment (drop j (req_path request)) n) /\
   (resolved = PNone <->
    forall (i : nat) n, ~ spec_models_segment (drop i (req_path request)) n)) /\
  extract_model_from_path
    (str "/gemini/v1beta/models/gemini-flash:generateContent")
  = Some (str "gemini-flash").
Proof.
  intros resolved. unfold resolved. rewrite save_log_arguments_model_name.
  split; [| split; [| by vm_compute]].
  - intros body items X. apply read_request_body_from_body.
  - intros H. rewrite (read_request_body_from_path _ H).
    unfold extract_model_from_path. split.
    + intros name. rewrite <- re_search_spec.
      destruct (re_search (req_path request)); split; congruence.
    + rewrite <- re_search_none.
      destruct (re_search (req_path request)); split; congruence.
Qed.

End ModelName.

Lemma model_name_resolution_witness :
  AiLogService.model_name
    (save_log_arguments JsonSample.json_loads JsonSample.json_dumps
       JsonSample.decode Examples.model_in_body_request
       {| status_code := 200; headers := []; body_iterator := [];
          media_type := None |} 0 0)
  = PStr (str "gemini-pro") /\
  exists i : nat,
    spec_models_segment
      (drop i (req_path Examples.model_in_path_request)) (str "gemini-flash").
Proof.
  split.
  - apply (proj1 (model_name_resolution JsonSample.json_loads
                    JsonSample.json_dumps JsonSample.decode
                    Examples.model_in_body_request _ 0 0)
             (JsonSample.doc "{'model': 'gemini-pro'}")
             [(str "model", PStr (str "gemini-pro"))] (str "gemini-pro"));
      by vm_compute.
  - assert (Hno : forall body,
              req_body Examples.model_in_path_request = Returned body ->
              body <> [] ->
              truthy (extract_model_from_body JsonSample.json_loads
                        (JsonSample.decode body)) = false).
    { intros body [= <-] _. by vm_compute. }
    assert (Hres :
              AiLogService.model_name
                (save_log_arguments JsonSample.json_loads JsonSample.json_dumps
                   JsonSample.decode Examples.model_in_path_request
                   {| status_code := 200; headers := []; body_iterator := [];
                      media_type := None |} 0 0)
              = PStr (str "gemini-flash")) by (by vm_compute).
    destruct (proj1 (proj1 (proj1 (proj2 (model_name_resolution
                JsonSample.json_loads JsonSample.json_dumps JsonSample.decode
                Examples.model_in_path_request _ 0 0)) Hno)
                (str "gemini-flash")) Hres)
      as [i [Hi _]].
    by exists i.
Defined.

(** C6, as the claim states it, fails: a body whose [model] is the empty
    string does not win over the path. *)
Lemma model_name_empty_in_body :
  JsonSample.json_loads (JsonSample.doc "{'model': '', 'contents': []}")
    = Returned (PDict [(str "model", PStr []); (str "contents", PList [])]) /\
  exists returned task,
    Examples.dispatch Examples.empty_model_request Examples.plain_handler
      = Returned (returned, Some task) /\
    AiLogService.model_name task = PStr (str "gemini-flash").
Proof.
  split; [by vm_compute |]. eexists _, _. split; by vm_compute.
Qed.

(* ===================================================================== *)
(** * Token counters                                                      *)
(* ===================================================================== *)

Ltac run_tokens :=
  cbv beta iota zeta delta
    [extract_tokens_from_response probe_tokens try_except mbind mret
     block_bind block_ret eval assign set_prompt_tokens set_completion_tokens
     set_total_tokens get prompt_tokens completion_tokens total_tokens snd fst].

Section TokenCounters.

Variable json_loads : pystr -> outcome pyval.

(** With a non-empty [usageMetadata] object, and a [usage] member that is
    absent, false or an object, all three counters are those of
    [usageMetadata]. *)
Lemma tokens_of_usage_metadata (response_str : pystr)
    (items um : list (pystr * pyval)) :
  json_loads response_str = Returned (PDict items) ->
  match dict_lookup items (str "usage") with
  | Some (PDict _) | None => True
  | Some v => truthy v = false
  end ->
  dict_lookup items (str "usageMetadata") = Some (PDict um) -> um <> [] ->
  extract_tokens_from_response json_loads response_str
  = (member um (str "promptTokenCount"),
     member um (str "candidatesTokenCount"),
     member um (str "totalTokenCount")).
Proof.
  intros Hjson Husage Hum Hne. run_tokens. rewrite Hjson. run_tokens.
  rewrite Hum.
  destruct um as [| kv um]; [done |]. unfold member.
  destruct (dict_lookup items (str "usage")) as [[| b | n | x | t | xs | u] |];
    cbn [truthy] in *; rewrite ?Husage; try reflexivity.
  by destruct u.
Qed.


(** What [extract_tokens_from_response] returns, case by case. [usage]
    and [usageMetadata] stand for the two members, [None] when absent. *)
Lemma extract_tokens_cases (response_str : pystr) :
  let result := extract_tokens_from_response json_loads response_str in
  let none := (PNone, PNone, PNone) in
  match json_loads response_str with
  | Returned (PDict items) =>
      let from_usage :=
        match dict_lookup items (str "usage") with
        | Some (PDict (kv :: u)) =>
            Some (member (kv :: u) (str "prompt_tokens"),
                  member (kv :: u) (str "completion_tokens"),
                  member (kv :: u) (str "total_tokens"))
        | Some v => if truthy v then None else Some none
        | None => Some none
        end in
      match from_usage with
      | None => result = none
      | Some first =>
          match dict_lookup items (str "usageMetadata") with
          | Some (PDict (kv :: um)) =>
              result = (member (kv :: um) (str "promptTokenCount"),
                        member (kv :: um) (str "candidatesTokenCount"),
                        member (kv :: um) (str "totalTokenCount"))
          | _ => result = first
          end
      end
  | _ => result = none
  end.
Proof.
  intros result none. unfold result, none. run_tokens.
  destruct (json_loads response_str) as [[| b | n | x | t | xs | items] | e];
    try reflexivity.
  run_tokens. unfold member.
  destruct (dict_lookup items (str "usage")) as [[| b | n | x | t | xs | u] |];
    destruct (dict_lookup items (str "usageMetadata"))
      as [[| b' | n' | x' | t' | xs' | um] |];
    cbn [truthy];
    repeat match goal with
           | |- context [match ?l with [] => _ | _ :: _ => _ end] => destruct l
           | |- context [if ?c then _ else _] =>
               match type of c with bool => destruct c end
           end;
    reflexivity.
Qed.




(** C10. With a [usage] object and a non-empty [usageMetadata] object,
    the three counters are read from [usageMetadata] alone: a counter
    whose key [usageMetadata] lacks is [None], whatever [usage] holds. *)
Theorem extract_tokens_per_object (response_str : pystr)
    (items u um : list (pystr * pyval)) :
  json_loads response_str = Returned (PDict items) ->
  dict_lookup items (str "usage") = Some (PDict u) ->
  dict_lookup items (str "usageMetadata") = Some (PDict um) -> um <> [] ->
  let result := extract_tokens_from_response json_loads response_str in
  result = (member um (str "promptTokenCount"),
            member um (str "candidatesTokenCount"),
            member um (str "totalTokenCount")) /\
  (dict_lookup um (str "promptTokenCount") = None -> result.1.1 = PNone) /\
  (dict_lookup um (str "candidatesTokenCount") = None -> result.1.2 = PNone) /\
  (dict_lookup um (str "totalTokenCount") = None -> result.2 = PNone).
Proof.
  intros Hjson Hu Hum Hne result.
  assert (Hres : result = (member um (str "promptTokenCount"),
                           member um (str "candidatesTokenCount"),
                           member um (str "totalTokenCount"))).
  { apply (tokens_of_usage_metadata _ items um Hjson); [| done | done].
    by rewrite Hu. }
  rewrite Hres. cbn [fst snd]. unfold member.
  split; [done |]. by repeat split; intros ->.
Qed.

End TokenCounters.


Lemma extract_tokens_per_object_witness :
  (extract_tokens_from_response JsonSample.json_loads
     Examples.both_usages_body).1.1 = PNone.
Proof.
  apply (proj1 (proj2 (extract_tokens_per_object JsonSample.json_loads
           Examples.both_usages_body Examples.both_usages_items
           [(str "prompt_tokens", PInt 5); (str "total_tokens", PInt 7)]
           [(str "totalTokenCount", PInt 9)]
           ltac:(by vm_compute) ltac:(by vm_compute) ltac:(by vm_compute)
           ltac:(done)))).
  by vm_compute.
Defined.

(* ===================================================================== *)
(** * The AI log store                                                    *)
(* ===================================================================== *)

(** Unfolding of the statement blocks of the service and the router. *)
Ltac run_blocks :=
  cbv beta iota zeta delta
    [AiLogRoutes.delete_ai_log_api AiLogRoutes.get_ai_log_detail_api
     AiLogRoutes.client_status AiLogRoutes.HTTP_204_NO_CONTENT
     AiLogService.delete_ai_logs_by_ids AiLogService.delete_ai_log_by_id
     AiLogService.get_ai_log_details AiLogService.add_ai_log
     AiLogService.execute AiLogService.fetch_one AiLogService.set_table
     AiLogService.logger try_except mbind mret block_bind
     block_ret eval assign read raise fst snd AiLogService.database
     AiLogService.log AiLogService.now AiLogService.table AiLogService.next_id
     AiLogService.engine_error].

Section Store.
Import AiLogService.

(** The table without the rows whose id is in [log_ids]. *)
Lemma filter_not_in_lookup (t : gmap Z AILogValues) (log_ids : list Z) (i : Z) :
  filter (fun kv => kv.1 ∉ log_ids) t !! i
  = if decide (i ∈ log_ids) then None else t !! i.
Proof.
  destruct (decide (i ∈ log_ids)) as [Hin | Hout].
  - apply map_lookup_filter_None. right. intros x _ Hx. by apply Hx.
  - destruct (t !! i) as [x |] eqn:E.
    + by apply map_lookup_filter_Some.
    + apply map_lookup_filter_None. by left.
Qed.

Lemma filter_not_in_twice (t : gmap Z AILogValues) (log_ids : list Z) :
  filter (fun kv => kv.1 ∉ log_ids) (filter (fun kv => kv.1 ∉ log_ids) t)
  = filter (fun kv => kv.1 ∉ log_ids) t.
Proof.
  apply map_eq. intros i. rewrite !filter_not_in_lookup.
  by destruct (decide (i ∈ log_ids)).
Qed.

(** C9. When the engine accepts the statement, [delete_ai_logs_by_ids]
    returns the length of the list it was given, removes the rows whose
    id is in the list and no other row, and a second call with the same
    list returns the same number and leaves the store as it is. After
    it, [get_ai_log_details] finds no row for an id of the list. *)
Theorem delete_ai_logs_by_ids_spec (log_ids : list Z) (w : World) :
  engine_error (database w) (DeleteWhereIdIn log_ids) = None ->
  let w' := (delete_ai_logs_by_ids log_ids w).2 in
  (delete_ai_logs_by_ids log_ids w).1 = Returned (len log_ids) /\
  (forall i, i ∈ log_ids -> table (database w') !! i = None) /\
  (forall i, i ∉ log_ids ->
     table (database w') !! i = table (database w) !! i) /\
  delete_ai_logs_by_ids log_ids w' = (Returned (len log_ids), w') /\
  (forall i, i ∈ log_ids ->
     engine_error (database w) (SelectWhereIdEq i) = None ->
     (get_ai_log_details i w').1 = Returned None).
Proof.
  intros Hok w'. unfold w'. clear w'. destruct w as [[t next err] lg clock].
  simpl in Hok. run_blocks. rewrite Hok. run_blocks.
  split; [done |]. split; [| split; [| split]].
  - intros i Hi. rewrite filter_not_in_lookup. by destruct (decide (i ∈ log_ids)).
  - intros i Hi. rewrite filter_not_in_lookup. by destruct (decide (i ∈ log_ids)).
  - rewrite Hok. run_blocks. by rewrite filter_not_in_twice.
  - intros i Hi Hsel. rewrite Hsel. run_blocks.
    rewrite filter_not_in_lookup. by destruct (decide (i ∈ log_ids)).
Qed.

End Store.

Lemma delete_ai_logs_by_ids_spec_witness :
  (AiLogService.delete_ai_logs_by_ids [1; 1; 99] Examples.two_rows).1
    = Returned 3 /\
  AiLogService.table
    (AiLogService.database
       (AiLogService.delete_ai_logs_by_ids [1; 1; 99] Examples.two_rows).2) !! 1
    = None /\
  (AiLogService.get_ai_log_details 1
     (AiLogService.delete_ai_logs_by_ids [1; 1; 99] Examples.two_rows).2).1
    = Returned None.
Proof.
  destruct (delete_ai_logs_by_ids_spec [1; 1; 99] Examples.two_rows eq_refl)
    as [Hcount [Hgone [_ [_ Hget]]]].
  split; [exact Hcount |]. split.
  - apply Hgone. set_solver.
  - apply Hget; [set_solver | reflexivity].
Defined.

(* ===================================================================== *)
(** * DELETE /api/ai-logs/{log_id}                                        *)
(* ===================================================================== *)

Section DeleteRoute.
Import AiLogService AiLogRoutes.

Variable verify_auth_token : pystr -> bool.

Lemma rejected_valid (token : pystr) :
  token <> [] -> verify_auth_token token = true ->
  rejected verify_auth_token (Some token) = false.
Proof. intros Hne Hok. unfold rejected. rewrite Hok. by destruct token. Qed.

(** C8 fails on the code. For an id that has no row, with a valid
    session and an engine that accepts the statement,
    [delete_ai_log_by_id] returns [True] and the route answers 204, not
    404; the store is left as it was. *)
Theorem delete_ai_log_api_missing_id (cookies : list (pystr * pystr))
    (token : pystr) (log_id : Z) (w : World) :
  1 <= log_id ->
  dict_lookup cookies (str "auth_token") = Some token ->
  token <> [] -> verify_auth_token token = true ->
  engine_error (database w) (DeleteWhereIdEq log_id) = None ->
  table (database w) !! log_id = None ->
  (delete_ai_log_by_id log_id w).1 = Returned true /\
  (delete_ai_log_api verify_auth_token cookies log_id w).1
    = Returned (ResponseStatus 204) /\
  table (database (delete_ai_log_api verify_auth_token cookies log_id w).2)
    = table (database w).
Proof.
  intros Hid Hcookie Hne Hvalid Hok Habsent.
  unfold delete_ai_log_api.
  destruct (Z.ltb_spec log_id 1); [lia |].
  rewrite Hcookie, (rejected_valid token Hne Hvalid).
  destruct w as [[t next err] lg clock]. simpl in Hok, Habsent.
  run_blocks. rewrite Hok. run_blocks.
  split; [done |]. split; [done |].
  apply map_eq. intros i.
  destruct (t !! i) as [x |] eqn:E.
  - apply map_lookup_filter_Some. split; [done |]. simpl. congruence.
  - apply map_lookup_filter_None. by left.
Qed.

(** For an id that has a row, the route answers 204 and the row is gone. *)
Lemma delete_ai_log_api_existing_id (cookies : list (pystr * pystr))
    (token : pystr) (log_id : Z) (w : World) :
  1 <= log_id ->
  dict_lookup cookies (str "auth_token") = Some token ->
  token <> [] -> verify_auth_token token = true ->
  engine_error (database w) (DeleteWhereIdEq log_id) = None ->
  (delete_ai_log_api verify_auth_token cookies log_id w).1
    = Returned (ResponseStatus 204) /\
  table (database (delete_ai_log_api verify_auth_token cookies log_id w).2)
    !! log_id = None.
Proof.
  intros Hid Hcookie Hne Hvalid Hok.
  unfold delete_ai_log_api.
  destruct (Z.ltb_spec log_id 1); [lia |].
  rewrite Hcookie, (rejected_valid token Hne Hvalid).
  destruct w as [[t next err] lg clock]. simpl in Hok.
  run_blocks. rewrite Hok. run_blocks.
  split; [done |].
  apply map_lookup_filter_None. right. intros x _ Hx. by apply Hx.
Qed.

(** The sibling route looks the row up, and answers 404 for such an id. *)
Lemma get_ai_log_detail_api_missing_id (cookies : list (pystr * pystr))
    (token : pystr) (log_id : Z) (w : World) :
  1 <= log_id ->
  dict_lookup cookies (str "auth_token") = Some token ->
  token <> [] -> verify_auth_token token = true ->
  engine_error (database w) (SelectWhereIdEq log_id) = None ->
  table (database w) !! log_id = None ->
  client_status
    (match (get_ai_log_detail_api verify_auth_token cookies log_id w).1 with
     | Returned r => r
     | Raised _ => ResponseStatus 0
     end) = 404.
Proof.
  intros Hid Hcookie Hne Hvalid Hok Habsent.
  unfold get_ai_log_detail_api.
  destruct (Z.ltb_spec log_id 1); [lia |].
  rewrite Hcookie, (rejected_valid token Hne Hvalid).
  destruct w as [[t next err] lg clock]. simpl in Hok, Habsent.
  run_blocks. rewrite Hok. run_blocks. by rewrite Habsent.
Qed.

(** The route answers 404 only when the engine raises. *)
Lemma delete_ai_log_api_engine_error (cookies : list (pystr * pystr))
    (token msg : pystr) (log_id : Z) (w : World) :
  1 <= log_id ->
  dict_lookup cookies (str "auth_token") = Some token ->
  token <> [] -> verify_auth_token token = true ->
  engine_error (database w) (DeleteWhereIdEq log_id) = Some msg ->
  exists detail,
    (delete_ai_log_api verify_auth_token cookies log_id w).1
      = Returned (HTTPException 404 detail).
Proof.
  intros Hid Hcookie Hne Hvalid Herr.
  unfold delete_ai_log_api.
  destruct (Z.ltb_spec log_id 1); [lia |].
  rewrite Hcookie, (rejected_valid token Hne Hvalid).
  destruct w as [[t next err] lg clock]. simpl in Herr.
  run_blocks. rewrite Herr. run_blocks. by eexists.
Qed.

End DeleteRoute.

Lemma delete_ai_log_api_missing_id_witness :
  (AiLogRoutes.delete_ai_log_api Examples.verify_auth_token
     Examples.session_cookies 7 Examples.two_rows).1
  = Returned (AiLogRoutes.ResponseStatus 204).
Proof.
  apply (delete_ai_log_api_missing_id Examples.verify_auth_token
           Examples.session_cookies (str "valid-session") 7 Examples.two_rows);
    try done.
Defined.

(* ===================================================================== *)
(** * The response returned by dispatch                                   *)
(* ===================================================================== *)

Lemma filter_other_names (k : pystr) (lines : list (pystr * pystr)) :
  k ∉ map fst lines -> filter (fun kv => kv.1 ≠ k) lines = lines.
Proof.
  induction lines as [| [k' v] lines IH]; [done |].
  intros Hk. rewrite filter_cons. simpl in *.
  apply not_elem_of_cons in Hk as [Hne Hk].
  destruct (decide (k' ≠ k)) as [_ | Heq]; [by rewrite IH |].
  destruct Heq. congruence.
Qed.

(** [dict(...)] keeps header lines whose names are all different. *)
Lemma dict_of_headers_nodup (lines : list (pystr * pystr)) :
  NoDup (map fst lines) -> dict_of_headers lines = lines.
Proof.
  induction lines as [| [k v] lines IH]; [done |].
  simpl. intros Hnd. apply NoDup_cons in Hnd as [Hk Hnd].
  by rewrite IH, filter_other_names.
Qed.

(** [dict(...)] has one line per name. *)
Lemma dict_of_headers_names (lines : list (pystr * pystr)) :
  NoDup (map fst (dict_of_headers lines)).
Proof.
  induction lines as [| [k v] lines IH]; simpl; [constructor |].
  apply NoDup_cons. split.
  - intros Hin. apply list_elem_of_fmap in Hin as [[k' v'] [Hk Hin]].
    apply list_elem_of_filter in Hin as [Hne _]. simpl in *. congruence.
  - revert IH. generalize (dict_of_headers lines). intros l Hl.
    induction l as [| [k' v'] l IHl]; [constructor |].
    rewrite filter_cons. simpl in Hl. apply NoDup_cons in Hl as [Hk' Hl].
    destruct (decide ((k', v').1 ≠ k)); [| by apply IHl].
    simpl. apply NoDup_cons. split; [| by apply IHl].
    intros Hin. apply Hk'.
    apply list_elem_of_fmap in Hin as [kv [-> Hin]].
    apply list_elem_of_filter in Hin as [_ Hin].
    apply list_elem_of_fmap. by exists kv.
Qed.

Section Response.

Variable json_loads : pystr -> outcome pyval.
Variable json_dumps : list (pystr * pystr) -> pystr.
Variable decode : pybytes -> pystr.

(** X10. On a monitored path, the response that [dispatch] returns has the
    status, the body bytes and the media type of the handler's response;
    its header lines are those of the handler's response when no name
    repeats among them. *)
Lemma dispatch_response (request : Request)
    (call_next : Request -> outcome Response) (request_time duration_ms : Z)
    (returned : Response) (task : AiLogService.AILogValues) :
  dispatch json_loads json_dumps decode request call_next request_time duration_ms
    = Returned (returned, Some task) ->
  exists response,
    call_next (forwarded_request request
                 (read_request_body json_loads decode request).1.1)
      = Returned response /\
    status_code returned = status_code response /\
    body_bytes returned = body_bytes response /\
    media_type returned = media_type response /\
    headers returned = dict_of_headers (headers response) /\
    (NoDup (map fst (headers response)) ->
     headers returned = headers response).
Proof.
  intros H. apply dispatch_task_inv in H as [_ [response [Hcall [_ ->]]]].
  exists response. split; [done |]. simpl.
  repeat split; try done.
  - unfold body_bytes. simpl. by rewrite app_nil_r.
  - apply dict_of_headers_nodup.
Qed.

(** A path that is not monitored gets the handler's response itself, and
    no task. *)
Lemma dispatch_unmonitored (request : Request)
    (call_next : Request -> outcome Response) (request_time duration_ms : Z) :
  should_monitor (req_path request) = false ->
  dispatch json_loads json_dumps decode request call_next request_time duration_ms
  = match call_next request with
    | Returned response => Returned (response, None)
    | Raised e => Raised e
    end.
Proof. intros H. unfold dispatch. by rewrite H. Qed.

(** The task never raises, whatever the engine does. *)
Lemma save_log_returns (kw : AiLogService.AILogValues) (w : AiLogService.World) :
  (_save_log kw w).1 = Returned tt.
Proof.
  destruct w as [[t next err] lg clock]. unfold _save_log. run_blocks.
  by destruct (err _).
Qed.

(** When the engine refuses the insert, the task writes an error record
    to the log and stores nothing. *)
Lemma save_log_engine_error (kw : AiLogService.AILogValues)
    (w : AiLogService.World) (msg : pystr) :
  (forall q, AiLogService.engine_error (AiLogService.database w) q = Some msg) ->
  AiLogService.log (_save_log kw w).2
    = AiLogService.log w
        ++ [(AiLogService.ERROR, str "Failed to add AI log: " ++ msg)] /\
  AiLogService.table (AiLogService.database (_save_log kw w).2)
    = AiLogService.table (AiLogService.database w).
Proof.
  destruct w as [[t next err] lg clock]. simpl. intros H.
  unfold _save_log. run_blocks. rewrite H. by run_blocks.
Qed.

(** The response of an exchange does not depend on the store: neither
    on its rows nor on whether its engine works. *)
Lemma exchange_response_independent (request : Request)
    (call_next : Request -> outcome Response) (request_time duration_ms : Z)
    (w1 w2 : AiLogService.World) :
  (exchange json_loads json_dumps decode request call_next
     request_time duration_ms w1).1
  = (exchange json_loads json_dumps decode request call_next
       request_time duration_ms w2).1.
Proof.
  unfold exchange.
  by destruct (dispatch _ _ _ _ _ _ _) as [[response [task |]] | e].
Qed.

End Response.

(** C1 fails on the code. The handler's response has two [set-cookie]
    lines; the response that [dispatch] returns has the same status and
    body bytes but only the first of the two lines. *)
Theorem dispatch_drops_repeated_header :
  Examples.cookie_handler Examples.bearer_request
    = Returned
        {| status_code := 200;
           headers := [(str "content-type", str "application/json");
                       (str "set-cookie", str "a=1");
                       (str "set-cookie", str "b=2")];
           body_iterator :=
             [JsonSample.doc "{'usage': {'total_tokens': 7}, ";
              JsonSample.doc "'usageMetadata': {'totalTokenCount': 9}}"];
           media_type := None |} /\
  exists returned task,
    Examples.dispatch Examples.bearer_request Examples.cookie_handler
      = Returned (returned, Some task) /\
    status_code returned = 200 /\
    body_bytes returned
      = JsonSample.doc
          "{'usage': {'total_tokens': 7}, 'usageMetadata': {'totalTokenCount': 9}}" /\
    headers returned = [(str "content-type", str "application/json");
                        (str "set-cookie", str "a=1")].
Proof.
  split; [reflexivity |]. eexists _, _. split; [by vm_compute |]. by vm_compute.
Qed.

(* ===================================================================== *)
(** * Further properties of the middleware functions                      *)
(* ===================================================================== *)

(** No path starts with an excluded prefix and a monitored one. *)
Lemma should_monitor_eq (path : pystr) :
  should_monitor path
  = existsb (fun monitor => startswith path monitor) MONITOR_PATHS.
Proof.
  unfold should_monitor.
  destruct (existsb (fun exclude => startswith path exclude) EXCLUDE_PATHS) eqn:E;
    [| by destruct (existsb _ MONITOR_PATHS)].
  apply existsb_exists in E as [exclude [Hin Hsw]].
  apply startswith_spec in Hsw as [rest ->].
  unfold EXCLUDE_PATHS in Hin. simpl in Hin.
  destruct Hin as [<- | [<- | [<- | []]]]; reflexivity.
Qed.

(** X1. A path is monitored exactly when it starts with one of the
    monitored prefixes: no path starts with an excluded prefix and a
    monitored one, so the exclusion list never changes the answer. *)
Theorem should_monitor_iff (path : pystr) :
  should_monitor path = existsb (fun monitor => startswith path monitor) MONITOR_PATHS
  /\ (should_monitor path = true <->
      exists monitor rest, monitor ∈ MONITOR_PATHS /\ path = monitor ++ rest).
Proof.
  split; [apply should_monitor_eq |].
  rewrite should_monitor_eq, existsb_exists. split.
  - intros [monitor [Hin Hsw]]. apply startswith_spec in Hsw as [rest ->].
    exists monitor, rest. split; [by apply list_elem_of_In | done].
  - intros [monitor [rest [Hin ->]]]. exists monitor.
    split; [by apply list_elem_of_In |]. apply startswith_spec. by exists rest.
Qed.

(** A key of the shape [a ++ d ++ b], with [a] and [b] of [n] characters
    each, has [a] as its first [n] characters and [b] as its last [n]. *)
Lemma ends_of_mask (a d b : pystr) (n : nat) :
  length a = n -> length b = n ->
  take n (a ++ d ++ b) = a /\
  drop (length (a ++ d ++ b) - n) (a ++ d ++ b) = b.
Proof.
  intros Ha Hb. split.
  - by apply take_app_length'.
  - rewrite (assoc_L (++)). apply drop_app_length'.
    rewrite !length_app. lia.
Qed.

(** X2. Masking a masked key changes nothing, and a mask has 3, 9 or 15
    characters whatever the length of the key. *)
Theorem redact_api_key_idempotent (key : option pystr) :
  redact_api_key (redact_api_key key) = redact_api_key key /\
  (forall r, redact_api_key key = Some r ->
             len r = 3 \/ len r = 9 \/ len r = 15).
Proof.
  destruct key as [k |]; [| by split].
  destruct k as [| c k]; [by split |].
  destruct (Z.le_gt_cases (len (c :: k)) 6) as [H6 | H6].
  - assert (Hr : redact_api_key (Some (c :: k)) = Some (str "***")).
    { unfold redact_api_key.
      destruct (Z.leb_spec (len (c :: k)) 12); [| lia].
      by destruct (Z.gtb_spec (len (c :: k)) 6); [lia |]. }
    rewrite Hr. split; [done |]. intros r [= <-]. by left.
  - destruct (Z.le_gt_cases (len (c :: k)) 12) as [H12 | H12].
    + rewrite redact_api_key_short by lia.
      set (a := take 3 (c :: k)). set (b := drop (length (c :: k) - 3) (c :: k)).
      assert (Ha : length a = 3%nat).
      { unfold a, len in *. rewrite length_take. lia. }
      assert (Hb : length b = 3%nat).
      { unfold b, len in *. rewrite length_drop. lia. }
      assert (Hlen : len (a ++ str "..." ++ b) = 9).
      { rewrite !len_app. unfold len. rewrite Ha, Hb. reflexivity. }
      split; [| intros ? [= <-]; tauto].
      rewrite redact_api_key_short by lia.
      destruct (ends_of_mask a (str "...") b 3 Ha Hb) as [-> ->]. done.
    + rewrite redact_api_key_long by lia.
      set (a := take 6 (c :: k)). set (b := drop (length (c :: k) - 6) (c :: k)).
      assert (Ha : length a = 6%nat).
      { unfold a, len in *. rewrite length_take. lia. }
      assert (Hb : length b = 6%nat).
      { unfold b, len in *. rewrite length_drop. lia. }
      assert (Hlen : len (a ++ str "..." ++ b) = 15).
      { rewrite !len_app. unfold len. rewrite Ha, Hb. reflexivity. }
      split; [| intros ? [= <-]; tauto].
      rewrite redact_api_key_long by lia.
      destruct (ends_of_mask a (str "...") b 6 Ha Hb) as [-> ->]. done.
Qed.

Lemma redact_api_key_idempotent_witness :
  len (str "sk-abc...efghij") = 3 \/ len (str "sk-abc...efghij") = 9
  \/ len (str "sk-abc...efghij") = 15.
Proof.
  apply (proj2 (redact_api_key_idempotent (Some (str "sk-abcdefghij")))).
  reflexivity.
Defined.

(** X3. A model name taken from the path is not empty, has no slash and
    no colon, and the path contains [/models/] followed by it; a path
    that does not contain [/models/] gives no name. *)
Theorem extract_model_from_path_shape (path : pystr) :
  (forall name,
     extract_model_from_path path = Some name ->
     name <> [] /\
     Forall (fun c => c <> 47%N /\ c <> 58%N) name /\
     contains path (str "/models/" ++ name) = true) /\
  (contains path (str "/models/") = false ->
   extract_model_from_path path = None).
Proof.
  assert (Hsome : forall name, re_search path = Some name ->
                    exists i : nat, spec_models_segment (drop i path) name).
  { intros name H. apply re_search_spec in H as [i [Hi _]]. eauto. }
  unfold extract_model_from_path. split.
  - intros name H.
    destruct (re_search path) as [n |] eqn:E; [| discriminate].
    injection H as ->. destruct (Hsome name eq_refl) as [i [Hne [Hall [rest [Hd _]]]]].
    split; [done |]. split; [done |].
    apply contains_spec. exists (take i path), rest.
    rewrite <- (assoc_L (++)), <- Hd. by rewrite take_drop.
  - intros Hno. destruct (re_search path) as [n |] eqn:E; [| done].
    destruct (Hsome n eq_refl) as [i [_ [_ [rest [Hd _]]]]].
    assert (Hin : contains path (str "/models/") = true); [| congruence].
    apply contains_spec. exists (take i path), (n ++ rest).
    rewrite <- Hd. by rewrite take_drop.
Qed.

Lemma extract_model_from_path_shape_witness :
  extract_model_from_path (str "/v1/chat/completions") = None /\
  contains (str "/gemini/v1beta/models/gemini-flash:generateContent")
    (str "/models/" ++ str "gemini-flash") = true.
Proof.
  split.
  - apply (proj2 (extract_model_from_path_shape (str "/v1/chat/completions"))).
    reflexivity.
  - apply (proj1 (extract_model_from_path_shape
                    (str "/gemini/v1beta/models/gemini-flash:generateContent"))
             (str "gemini-flash")).
    reflexivity.
Defined.

Section MoreTokenCounters.

Variable json_loads : pystr -> outcome pyval.

(** X4. The OpenAI dialect alone: with a non-empty [usage] object, and a
    [usageMetadata] member that is anything but a non-empty object
    (absent, null, empty, or even a number or a string), the three
    counters are the [prompt_tokens], [completion_tokens] and
    [total_tokens] of [usage], [None] where a key is missing. *)
Theorem extract_tokens_usage_only (response_str : pystr)
    (items u : list (pystr * pyval)) :
  json_loads response_str = Returned (PDict items) ->
  dict_lookup items (str "usage") = Some (PDict u) -> u <> [] ->
  (forall um, dict_lookup items (str "usageMetadata") = Some (PDict um) ->
              um = []) ->
  extract_tokens_from_response json_loads response_str
  = (member u (str "prompt_tokens"),
     member u (str "completion_tokens"),
     member u (str "total_tokens")).
Proof.
  intros Hjson Hu Hne Hum.
  pose proof (extract_tokens_cases json_loads response_str) as H.
  cbv zeta in H. rewrite Hjson, Hu in H.
  destruct u as [| kv u]; [done |].
  destruct (dict_lookup items (str "usageMetadata"))
    as [[| ? | ? | ? | ? | ? | [| kv' um]] |]; try exact H.
  by specialize (Hum _ eq_refl).
Qed.

(** X5. A [usage] member that is true but not an object (a number other
    than zero, a non-empty string or list, [true]) makes the first
    [usage.get] raise: all three counters are [None], even when
    [usageMetadata] holds counts. *)
Theorem extract_tokens_usage_not_object (response_str : pystr)
    (items : list (pystr * pyval)) (usage : pyval) :
  json_loads response_str = Returned (PDict items) ->
  dict_lookup items (str "usage") = Some usage ->
  truthy usage = true ->
  (forall u, usage <> PDict u) ->
  extract_tokens_from_response json_loads response_str = (PNone, PNone, PNone).
Proof.
  intros Hjson Hu Htrue Hobj.
  pose proof (extract_tokens_cases json_loads response_str) as H.
  cbv zeta in H. rewrite Hjson, Hu in H.
  destruct usage as [| b | n | x | t | xs | u];
    try (rewrite Htrue in H; exact H).
  by destruct (Hobj u).
Qed.

End MoreTokenCounters.

Lemma extract_tokens_usage_only_witness :
  extract_tokens_from_response JsonSample.json_loads
    (JsonSample.doc "{'usage': {'prompt_tokens': 5, 'total_tokens': 7}, 'usageMetadata': 1}")
  = (PInt 5, PNone, PInt 7).
Proof.
  apply (extract_tokens_usage_only JsonSample.json_loads _
           [(str "usage", PDict [(str "prompt_tokens", PInt 5);
                                 (str "total_tokens", PInt 7)]);
            (str "usageMetadata", PInt 1)]
           [(str "prompt_tokens", PInt 5); (str "total_tokens", PInt 7)]);
    [by vm_compute | by vm_compute | done |].
  intros um H. vm_compute in H. discriminate.
Defined.

Lemma extract_tokens_usage_not_object_witness :
  extract_tokens_from_response JsonSample.json_loads
    (JsonSample.doc "{'usage': 12, 'usageMetadata': {'totalTokenCount': 9}}")
  = (PNone, PNone, PNone).
Proof.
  apply (extract_tokens_usage_not_object JsonSample.json_loads _
           [(str "usage", PInt 12);
            (str "usageMetadata", PDict [(str "totalTokenCount", PInt 9)])]
           (PInt 12));
    [by vm_compute | by vm_compute | done | discriminate].
Defined.

(* ===================================================================== *)
(** * The stored request headers                                          *)
(* ===================================================================== *)

Lemma str_eqb_eq (a b : pystr) : str_eqb a b = true <-> a = b.
Proof. unfold str_eqb. apply bool_decide_eq_true. Qed.








Lemma scan_header_x_api_key (st : HeaderScan) (k v : pystr) :
  lower k = str "x-api-key" ->
  scanned_api_key (scan_header st (k, v)) = Some v.
Proof. intros Hk. unfold scan_header. by rewrite Hk. Qed.

Section MoreDispatch.

Variable json_loads : pystr -> outcome pyval.
Variable json_dumps : list (pystr * pystr) -> pystr.
Variable decode : pybytes -> pystr.

(** X7. Without a header line that carries a credential (an
    [x-api-key] line, or an [authorization] line that starts with
    [Bearer ]), the stored [api_key] is [None]; when the last such line
    is an [x-api-key] line, it is the redaction of that line's value. *)
Theorem save_log_arguments_api_key_sources (request : Request)
    (response : Response) (request_time duration_ms : Z) :
  let stored :=
    AiLogService.api_key
      (save_log_arguments json_loads json_dumps decode request response
         request_time duration_ms) in
  (forallb (fun kv => negb (assigns_api_key kv)) (req_headers request) = true ->
   stored = None) /\
  (forall before k v after,
     req_headers request = before ++ (k, v) :: after ->
     lower k = str "x-api-key" ->
     forallb (fun kv => negb (assigns_api_key kv)) after = true ->
     stored = redact_api_key (Some v)).
Proof.
  cbv zeta. rewrite save_log_arguments_api_key. split.
  - intros H. unfold scan_headers. by rewrite fold_scan_keeps_api_key.
  - intros before k v after Hh Hk Hafter. f_equal.
    unfold scan_headers. rewrite Hh, fold_left_app. cbn [fold_left].
    rewrite fold_scan_keeps_api_key by done.
    by apply scan_header_x_api_key.
Qed.

(** The body that [dispatch] hands on: the one it read, and none when
    the read failed. *)
Lemma read_request_body_bytes (request : Request) :
  (read_request_body json_loads decode request).1.1
  = match req_body request with
    | Returned body => body
    | Raised _ => []
    end.
Proof.
  unfold read_request_body. by destruct (req_body request) as [[| b body] | e].
Qed.

Lemma forwarded_request_same (request : Request) (body : pybytes) :
  req_body request = Returned body -> forwarded_request request body = request.
Proof. intros H. unfold forwarded_request. destruct request. simpl in *. by subst. Qed.

(** X8. A path that starts with none of the monitored prefixes passes
    through: [dispatch] gives back exactly what the handler does with the
    request, creates no task, and the exchange leaves the store as it
    is. *)
Theorem dispatch_unmonitored_passthrough (request : Request)
    (call_next : Request -> outcome Response) (request_time duration_ms : Z)
    (w : AiLogService.World) :
  (forall monitor, monitor ∈ MONITOR_PATHS ->
                   startswith (req_path request) monitor = false) ->
  dispatch json_loads json_dumps decode request call_next request_time duration_ms
  = match call_next request with
    | Returned response => Returned (response, None)
    | Raised e => Raised e
    end /\
  exchange json_loads json_dumps decode request call_next request_time
    duration_ms w
  = (call_next request, w).
Proof.
  intros Hno.
  assert (Hm : should_monitor (req_path request) = false).
  { rewrite should_monitor_eq. apply not_true_is_false. intros H.
    apply existsb_exists in H as [monitor [Hin Hsw]].
    rewrite Hno in Hsw; [done | by apply list_elem_of_In]. }
  assert (Hd := dispatch_unmonitored json_loads json_dumps decode request
                  call_next request_time duration_ms Hm).
  split; [exact Hd |]. unfold exchange. rewrite Hd.
  by destruct (call_next request).
Qed.

(** X9. On a monitored path whose body can be read, the handler is
    called with the request itself, body included. When the handler
    raises, [dispatch] raises the same exception, no task is created and
    the store stays as it is; when it returns, a task is created and the
    caller gets the handler's status and body bytes. *)
Theorem dispatch_monitored_forwards (request : Request) (body : pybytes)
    (call_next : Request -> outcome Response) (request_time duration_ms : Z)
    (w : AiLogService.World) :
  should_monitor (req_path request) = true ->
  req_body request = Returned body ->
  (forall e, call_next request = Raised e ->
     exchange json_loads json_dumps decode request call_next request_time
       duration_ms w = (Raised e, w)) /\
  (forall response, call_next request = Returned response ->
     exists returned,
       dispatch json_loads json_dumps decode request call_next request_time
         duration_ms
       = Returned (returned,
                   Some (save_log_arguments json_loads json_dumps decode request
                           response request_time duration_ms)) /\
       status_code returned = status_code response /\
       body_bytes returned = body_bytes response).
Proof.
  intros Hm Hbody.
  assert (Hd : dispatch json_loads json_dumps decode request call_next
                 request_time duration_ms
               = match call_next request with
                 | Raised e => Raised e
                 | Returned response =>
                     Returned
                       ({| status_code := status_code response;
                           headers := dict_of_headers (headers response);
                           body_iterator := [concat (body_iterator response)];
                           media_type := media_type response |},
                        Some (save_log_arguments json_loads json_dumps decode
                                request response request_time duration_ms))
                 end).
  { unfold dispatch. rewrite Hm. cbn [negb].
    pose proof (read_request_body_bytes request) as Hb. rewrite Hbody in Hb.
    destruct (read_request_body json_loads decode request) as [[b ?] ?].
    simpl in Hb. subst b. by rewrite (forwarded_request_same _ _ Hbody). }
  split.
  - intros e He. unfold exchange. by rewrite Hd, He.
  - intros response Hr. rewrite Hd, Hr. eexists. split; [done |]. simpl.
    split; [done |]. unfold body_bytes. simpl. by rewrite app_nil_r.
Qed.

End MoreDispatch.

Lemma save_log_arguments_api_key_sources_witness :
  AiLogService.api_key
    (save_log_arguments JsonSample.json_loads JsonSample.json_dumps
       JsonSample.decode Examples.empty_model_request
       {| status_code := 200; headers := []; body_iterator := [];
          media_type := None |} 0 0) = None /\
  AiLogService.api_key
    (save_log_arguments JsonSample.json_loads JsonSample.json_dumps
       JsonSample.decode Examples.two_credentials_request
       {| status_code := 200; headers := []; body_iterator := [];
          media_type := None |} 0 0)
  = redact_api_key (Some (str "other-key-123")).
Proof.
  split.
  - apply (proj1 (save_log_arguments_api_key_sources JsonSample.json_loads
                    JsonSample.json_dumps JsonSample.decode
                    Examples.empty_model_request _ 0 0)).
    reflexivity.
  - apply (proj2 (save_log_arguments_api_key_sources JsonSample.json_loads
                    JsonSample.json_dumps JsonSample.decode
                    Examples.two_credentials_request _ 0 0)
             [(str "authorization", str "Bearer sk-abcdefghij")]
             (str "x-api-key") (str "other-key-123") []);
      reflexivity.
Defined.

Lemma dispatch_unmonitored_passthrough_witness :
  Examples.dispatch Shapes.health_request Examples.plain_handler
  = match Examples.plain_handler Shapes.health_request with
    | Returned response => Returned (response, None)
    | Raised e => Raised e
    end.
Proof.
  apply (dispatch_unmonitored_passthrough JsonSample.json_loads
           JsonSample.json_dumps JsonSample.decode Shapes.health_request
           Examples.plain_handler 1700000000000000 5 Examples.two_rows).
  intros monitor Hin. unfold MONITOR_PATHS in Hin.
  repeat (apply elem_of_cons in Hin as [-> | Hin]; [reflexivity |]).
  by apply elem_of_nil in Hin.
Defined.

Lemma dispatch_monitored_forwards_witness :
  exists returned,
    Examples.dispatch Examples.bearer_request Examples.plain_handler
    = Returned (returned,
                Some (save_log_arguments JsonSample.json_loads
                        JsonSample.json_dumps JsonSample.decode
                        Examples.bearer_request
                        {| status_code := 200;
                           headers := [(str "content-type", str "application/json")];
                           body_iterator := [JsonSample.doc "{'usage': ";
                                             JsonSample.doc "{'total_tokens': 7}}"];
                           media_type := None |}
                        1700000000000000 5)) /\
    status_code returned = 200 /\
    body_bytes returned = JsonSample.doc "{'usage': {'total_tokens': 7}}".
Proof.
  exact (proj2 (dispatch_monitored_forwards JsonSample.json_loads
                  JsonSample.json_dumps JsonSample.decode Examples.bearer_request
                  (JsonSample.doc "{'model': 'gemini-pro'}")
                  Examples.plain_handler 1700000000000000 5 Examples.two_rows
                  eq_refl eq_refl) _ eq_refl).
Defined.

Lemma dispatch_response_witness :
  exists returned task,
    Examples.dispatch Examples.bearer_request Examples.plain_handler
      = Returned (returned, Some task) /\
    headers returned = [(str "content-type", str "application/json")].
Proof.
  destruct (Examples.dispatch Examples.bearer_request Examples.plain_handler)
    as [[returned [task |]] | e] eqn:H;
    try (vm_compute in H; discriminate).
  exists returned, task. split; [reflexivity |].
  destruct (dispatch_response _ _ _ _ _ _ _ _ _ H)
    as [response [Hcall [_ [_ [_ [_ Hh]]]]]].
  injection Hcall as <-. apply Hh. simpl.
  apply NoDup_singleton.
Defined.

(* ===================================================================== *)
(** * The content preview                                                 *)
(* ===================================================================== *)

Lemma isspace_space : isspace 32%N = true.
Proof. reflexivity. Qed.

Lemma not_space (c : N) : isspace c = false -> (c =? 32)%N = false.
Proof.
  intros H. destruct (N.eqb_spec c 32) as [-> | ?]; [| done].
  by rewrite isspace_space in H.
Qed.

(** The words of [split] are not empty and hold no white space. *)
Lemma split_from_words (s cur : pystr) :
  Forall (fun c => isspace c = false) cur ->
  Forall (fun w => w <> [] /\ Forall (fun c => isspace c = false) w)
    (split_from s cur).
Proof.
  revert cur. induction s as [| c s IH]; intros cur Hcur; simpl.
  - destruct cur as [| d cur]; constructor; [| constructor].
    split; [| by apply Forall_rev].
    intros H. apply (f_equal length) in H. rewrite length_rev in H. done.
  - destruct (isspace c) eqn:E.
    + destruct cur as [| d cur]; [by apply IH |].
      constructor; [| by apply IH].
      split; [| by apply Forall_rev].
      intros H. apply (f_equal length) in H. rewrite length_rev in H. done.
    + apply IH. by constructor.
Qed.

Lemma single_spaced_word (w rest : pystr) (b : bool) :
  w <> [] -> Forall (fun c => isspace c = false) w ->
  Shapes.single_spaced b (w ++ rest) = Shapes.single_spaced false rest.
Proof.
  intros Hne Hw. revert b. induction Hw as [| c w Hc Hw IH]; [done |].
  intros b. simpl. rewrite (not_space c Hc), Hc. simpl.
  destruct w as [| d w]; [done |]. by apply IH.
Qed.

Lemma single_spaced_join (words : list pystr) :
  Forall (fun w => w <> [] /\ Forall (fun c => isspace c = false) w) words ->
  Shapes.single_spaced true (join (str " ") words) = true.
Proof.
  induction 1 as [| w words [Hne Hw] Hws IH]; [done |].
  simpl. destruct words as [| w' words].
  - rewrite <- (app_nil_r w). by rewrite single_spaced_word.
  - rewrite single_spaced_word by done. exact IH.
Qed.

Lemma single_spaced_take (t : pystr) (n : nat) (b : bool) :
  Shapes.single_spaced b t = true -> Shapes.single_spaced b (take n t) = true.
Proof.
  revert n b. induction t as [| c t IH]; intros [| n] b; simpl; try done.
  destruct (c =? 32)%N; intros H; apply andb_true_iff in H as [-> H];
    by apply IH.
Qed.

Lemma preview_of_single_spaced (max_length : Z) (text : pystr) :
  Shapes.single_spaced true (preview_of max_length text) = true.
Proof.
  unfold preview_of.
  assert (H : Shapes.single_spaced true (join (str " ") (split text)) = true).
  { apply single_spaced_join, split_from_words. constructor. }
  destruct (_ >? _); [| done].
  unfold slice_to. destruct (_ <? _); by apply single_spaced_take.
Qed.

Lemma preview_of_length (max_length : Z) (text : pystr) :
  0 <= max_length -> len (preview_of max_length text) <= max_length.
Proof.
  intros Hm. unfold preview_of.
  destruct (Z.gtb_spec (len (join (str " ") (split text))) max_length); [| lia].
  rewrite slice_to_take by done. unfold len. rewrite length_take. lia.
Qed.

(** Every loop of [extract_content_preview] returns a [preview_of]. *)
Lemma preview_in_items_of (max_length : Z) (content : list pyval) (t : pystr) :
  preview_in_items max_length content = Returned (Some t) ->
  exists text, t = preview_of max_length text.
Proof.
  induction content as [| item content IH]; simpl; [done |].
  destruct item as [| | | | | | kvs]; try exact IH.
  destruct (dict_lookup kvs (str "type")) as [[| | | | ty | |] |]; try exact IH.
  destruct (str_eqb ty (str "text")); [| exact IH].
  destruct (as_str _) as [text | e]; simpl; [| done].
  intros [= <-]. by exists text.
Qed.

Lemma preview_in_messages_of (max_length : Z) (messages : list pyval) (t : pystr) :
  preview_in_messages max_length messages = Returned (Some t) ->
  exists text, t = preview_of max_length text.
Proof.
  induction messages as [| msg messages IH]; simpl; [done |].
  destruct (get msg (str "content") PNone) as [content | e]; simpl; [| done].
  destruct (truthy content); [| exact IH].
  destruct content as [| | | | s | items |]; try exact IH.
  - intros [= <-]. by exists s.
  - destruct (preview_in_items max_length items) as [[t' |] | e] eqn:E;
      simpl; [| exact IH | done].
    intros [= <-]. by apply (preview_in_items_of _ _ _ E).
Qed.

Lemma preview_in_parts_of (max_length : Z) (parts : list pyval) (t : pystr) :
  preview_in_parts max_length parts = Returned (Some t) ->
  exists text, t = preview_of max_length text.
Proof.
  induction parts as [| part parts IH]; simpl; [done |].
  destruct part as [| | | | | | kvs]; try exact IH.
  destruct (dict_lookup kvs (str "text")) as [v |]; [| exact IH].
  destruct (as_str v) as [text | e]; simpl; [| done].
  intros [= <-]. by exists text.
Qed.

Lemma preview_in_contents_of (max_length : Z) (contents : list pyval) (t : pystr) :
  preview_in_contents max_length contents = Returned (Some t) ->
  exists text, t = preview_of max_length text.
Proof.
  induction contents as [| c contents IH]; simpl; [done |].
  destruct (get c (str "parts") (PList [])) as [parts | e]; simpl; [| done].
  destruct (iterate parts) as [ps | e]; simpl; [| done].
  destruct (preview_in_parts max_length ps) as [[t' |] | e] eqn:E;
    simpl; [| exact IH | done].
  intros [= <-]. by apply (preview_in_parts_of _ _ _ E).
Qed.

Section Preview.

Variable json_loads : pystr -> outcome pyval.

Lemma extract_content_preview_of (body_str : pystr) (max_length : Z) (t : pystr) :
  extract_content_preview json_loads body_str max_length = Some t ->
  exists text, t = preview_of max_length text.
Proof.
  unfold extract_content_preview, probe_preview.
  destruct (json_loads body_str) as [data | e]; simpl; [| done].
  destruct (get data (str "messages") (PList [])) as [messages | e]; simpl; [| done].
  destruct (if truthy messages then _ else _) as [[t' |] | e] eqn:E1; simpl;
    [| | done].
  { intros [= <-]. destruct (truthy messages); [| done].
    destruct (iterate messages) as [ms | e]; simpl in E1; [| done].
    by apply (preview_in_messages_of _ _ _ E1). }
  destruct (get data (str "contents") (PList [])) as [contents | e]; simpl; [| done].
  destruct (if truthy contents then _ else _) as [[t' |] | e] eqn:E2; simpl;
    [| | done].
  { intros [= <-]. destruct (truthy contents); [| done].
    destruct (iterate contents) as [cs | e]; simpl in E2; [| done].
    by apply (preview_in_contents_of _ _ _ E2). }
  destruct (get data (str "prompt") PNone) as [prompt | e]; simpl; [| done].
  destruct (truthy prompt); [| done].
  destruct (as_str prompt) as [p | e]; simpl; [| done].
  intros [= <-]. by exists p.
Qed.

(** X11. Whatever the request body, a content preview has its white
    space reduced to single spaces (no white-space character but the
    space, none at the start, never two in a row) and, for a
    non-negative [max_length], at most [max_length] characters. *)
Theorem extract_content_preview_bounds (body_str : pystr) (max_length : Z)
    (t : pystr) :
  extract_content_preview json_loads body_str max_length = Some t ->
  Shapes.single_spaced true t = true /\
  (0 <= max_length -> len t <= max_length).
Proof.
  intros H. apply extract_content_preview_of in H as [text ->]. split.
  - apply preview_of_single_spaced.
  - apply preview_of_length.
Qed.

End Preview.

Lemma extract_content_preview_bounds_witness :
  Shapes.single_spaced true (str "Tell me abou") = true /\
  len (str "Tell me abou") <= 12.
Proof.
  destruct (extract_content_preview_bounds JsonSample.json_loads
              (JsonSample.doc "{'messages': [{'role': 'user', 'content': '  Tell   me about  Rocq '}]}")
              12 (str "Tell me abou") ltac:(by vm_compute)) as [H1 H2].
  split; [exact H1 | apply H2; done].
Defined.

Ltac step_preview :=
  cbn [truthy iterate mbind mret outcome_bind outcome_ret preview_in_messages
       preview_in_contents preview_in_parts preview_in_items get as_str].

Section PreviewShapes.

Variable json_loads : pystr -> outcome pyval.

(** X12. The three request shapes, in the order they are tried. A chat
    body whose first message has a non-empty string as [content] gives
    the preview of that string, whatever else the body holds. Without
    [messages], a body whose first entry of [contents] starts its
    [parts] with an object that has a string [text] gives the preview
    of that text, even when the text is empty. Without [messages] and
    [contents], a non-empty string [prompt] gives its preview. A body
    that is not JSON gives no preview. *)
Theorem extract_content_preview_shapes (body_str : pystr) (max_length : Z) :
  let preview := extract_content_preview json_loads body_str max_length in
  (forall items msg rest s,
     json_loads body_str = Returned (PDict items) ->
     dict_lookup items (str "messages") = Some (PList (PDict msg :: rest)) ->
     dict_lookup msg (str "content") = Some (PStr s) -> s <> [] ->
     preview = Some (preview_of max_length s)) /\
  (forall items c rest part parts text,
     json_loads body_str = Returned (PDict items) ->
     dict_lookup items (str "messages") = None ->
     dict_lookup items (str "contents") = Some (PList (PDict c :: rest)) ->
     dict_lookup c (str "parts") = Some (PList (PDict part :: parts)) ->
     dict_lookup part (str "text") = Some (PStr text) ->
     preview = Some (preview_of max_length text)) /\
  (forall items p,
     json_loads body_str = Returned (PDict items) ->
     dict_lookup items (str "messages") = None ->
     dict_lookup items (str "contents") = None ->
     dict_lookup items (str "prompt") = Some (PStr p) -> p <> [] ->
     preview = Some (preview_of max_length p)) /\
  (forall e, json_loads body_str = Raised e -> preview = None).
Proof.
  cbv zeta. unfold extract_content_preview, probe_preview.
  split; [| split; [| split]].
  - intros items msg rest s -> Hm Hc Hs. step_preview. rewrite Hm. step_preview.
    rewrite Hc. step_preview. by destruct s.
  - intros items c rest part parts text -> Hm Hc Hp Ht. step_preview.
    rewrite Hm, Hc. step_preview. rewrite Hp. step_preview. by rewrite Ht.
  - intros items p -> Hm Hc Hp Hne. step_preview. rewrite Hm, Hc, Hp. step_preview.
    by destruct p.
  - by intros e ->.
Qed.

End PreviewShapes.

Lemma extract_content_preview_shapes_witness :
  extract_content_preview JsonSample.json_loads
    (JsonSample.doc "{'contents': [{'parts': [{'text': ''}, {'text': 'hello'}]}], 'prompt': 'ignored'}")
    12 = Some [] /\
  extract_content_preview JsonSample.json_loads (str "not json") 12 = None.
Proof.
  split.
  - apply (proj1 (proj2 (extract_content_preview_shapes JsonSample.json_loads
             (JsonSample.doc "{'contents': [{'parts': [{'text': ''}, {'text': 'hello'}]}], 'prompt': 'ignored'}")
             12))
             [(str "contents",
               PList [PDict [(str "parts",
                              PList [PDict [(str "text", PStr [])];
                                     PDict [(str "text", PStr (str "hello"))]])]]);
              (str "prompt", PStr (str "ignored"))]
             [(str "parts",
               PList [PDict [(str "text", PStr [])];
                      PDict [(str "text", PStr (str "hello"))]])]
             []
             [(str "text", PStr [])]
             [PDict [(str "text", PStr (str "hello"))]]
             []); by vm_compute.
  - apply (proj2 (proj2 (proj2 (extract_content_preview_shapes
             JsonSample.json_loads (str "not json") 12)))
             (str "JSONDecodeError")).
    by vm_compute.
Defined.

(* ===================================================================== *)
(** * Further properties of the store                                     *)
(* ===================================================================== *)

(** Unfolding of the statement blocks of the whole service. *)
Ltac run_service :=
  cbv beta iota zeta delta
    [AiLogMaintenance.delete_all_ai_logs AiLogMaintenance.delete_old_ai_logs
     AiLogMaintenance.fetch_val AiLogMaintenance.execute_query
     AiLogService.delete_ai_logs_by_ids AiLogService.delete_ai_log_by_id
     AiLogService.get_ai_log_details AiLogService.add_ai_log
     AiLogService.execute AiLogService.fetch_one AiLogService.set_table
     AiLogService.logger _save_log try_except mbind mret block_bind
     block_ret eval assign read raise AiLogService.database
     AiLogService.log AiLogService.now AiLogService.table AiLogService.next_id
     AiLogService.engine_error];
  cbn [fst snd].

Section MoreStore.
Import AiLogService.

(** X13. Insert and look up. When the engine accepts inserts,
    [add_ai_log] returns [True] and stores the values under the next id,
    with the current time where no [request_time] was given; the next id
    moves on by one, every other row and the log stay as they are, and
    [get_ai_log_details] returns the new row. *)
Theorem add_ai_log_stores (kw : AILogValues) (w : World) :
  (forall q, engine_error (database w) q = None) ->
  let w' := (add_ai_log kw w).2 in
  let row :=
    Shapes.with_request_time kw
      (match request_time kw with Some t => t | None => now w end) in
  (add_ai_log kw w).1 = Returned true /\
  table (database w') !! next_id (database w) = Some row /\
  (forall t, request_time kw = Some t -> row = kw) /\
  next_id (database w') = next_id (database w) + 1 /\
  (forall i, i <> next_id (database w) ->
     table (database w') !! i = table (database w) !! i) /\
  log w' = log w /\
  (get_ai_log_details (next_id (database w)) w').1
    = Returned (Some (next_id (database w), row)).
Proof.
  destruct w as [[t next err] lg clock]. simpl. intros Hok.
  run_service. rewrite !Hok. run_service.
  assert (Hrow : {| method := method kw; path := path kw;
                    request_headers := request_headers kw;
                    request_body := request_body kw;
                    status_code := status_code kw;
                    response_body := response_body kw;
                    latency_ms := latency_ms kw;
                    model_name := model_name kw;
                    api_key := api_key kw;
                    request_time :=
                      match request_time kw with
                      | Some r => Some r
                      | None => Some clock
                      end;
                    prompt_tokens := prompt_tokens kw;
                    completion_tokens := completion_tokens kw;
                    total_tokens := total_tokens kw;
                    content_preview := content_preview kw |}
                 = Shapes.with_request_time kw
                     (match request_time kw with Some t => t | None => clock end)).
  { unfold Shapes.with_request_time. by destruct (request_time kw). }
  rewrite Hrow. rewrite !lookup_insert_eq.
  repeat split; try done.
  - intros r Hr. rewrite Hr. destruct kw. simpl in *. by subst.
  - intros i Hi. by rewrite lookup_insert_ne.
Qed.

End MoreStore.

Lemma add_ai_log_stores_witness :
  (AiLogService.add_ai_log Examples.sample_row Examples.two_rows).1
    = Returned true /\
  AiLogService.table
    (AiLogService.database
       (AiLogService.add_ai_log Examples.sample_row Examples.two_rows).2) !! 3
  = Some Examples.sample_row.
Proof.
  destruct (add_ai_log_stores Examples.sample_row Examples.two_rows
              (fun _ => eq_refl)) as [H1 [H2 _]].
  split; [exact H1 | exact H2].
Defined.

Section StoreErrors.
Import AiLogService.

Variable query_error : AiLogMaintenance.Query -> option pystr.

(** X14. When the engine refuses every statement with the message
    [msg], each function of the service leaves the database as it is and
    writes one error record to the log. [add_ai_log] and
    [delete_ai_log_by_id] then return [False]; [get_ai_log_details],
    [delete_ai_logs_by_ids], [delete_all_ai_logs] and [delete_old_ai_logs]
    raise [msg] again. The task [_save_log] returns normally. *)
Theorem service_engine_errors (w : World) (msg : pystr) :
  (forall q, engine_error (database w) q = Some msg) ->
  (forall q, query_error q = Some msg) ->
  let failed (text : pystr) (w' : World) :=
    database w' = database w /\ log w' = log w ++ [(ERROR, text ++ msg)] in
  (forall kw,
     (add_ai_log kw w).1 = Returned false /\
     failed (str "Failed to add AI log: ") (add_ai_log kw w).2 /\
     _save_log kw w = (Returned tt, (add_ai_log kw w).2)) /\
  (forall log_id,
     (delete_ai_log_by_id log_id w).1 = Returned false /\
     failed (str "Failed to delete AI log ID " ++ str_of_int log_id ++ str ": ")
       (delete_ai_log_by_id log_id w).2) /\
  (forall log_id,
     (get_ai_log_details log_id w).1 = Raised msg /\
     failed (str "Failed to get AI log details for ID " ++ str_of_int log_id
               ++ str ": ")
       (get_ai_log_details log_id w).2) /\
  (forall log_ids,
     (delete_ai_logs_by_ids log_ids w).1 = Raised msg /\
     failed (str "Failed to delete AI logs by IDs: ")
       (delete_ai_logs_by_ids log_ids w).2) /\
  ((AiLogMaintenance.delete_all_ai_logs query_error w).1 = Raised msg /\
   failed (str "Failed to delete all AI logs: ")
     (AiLogMaintenance.delete_all_ai_logs query_error w).2) /\
  (forall days,
     Z.abs days <= 999999999 ->
     0 <= now w - days * 86400000000 < AiLogMaintenance.DATETIME_END ->
     (AiLogMaintenance.delete_old_ai_logs query_error days w).1 = Raised msg /\
     failed (str "Failed to delete old AI logs: ")
       (AiLogMaintenance.delete_old_ai_logs query_error days w).2).
Proof.
  destruct w as [[t next err] lg clock]. simpl. intros Herr Hq.
  repeat split; run_service; rewrite ?Herr, ?Hq; run_service;
    rewrite <- ?(assoc_L (++)); try done.
  all: unfold AiLogMaintenance.timedelta, AiLogMaintenance.datetime_sub.
  all: destruct (Z.gtb_spec (Z.abs days) 999999999); [lia |].
  all: run_service.
  all: destruct (Z.ltb_spec (clock - days * 86400000000) 0); [lia |].
  all: destruct (Z.leb_spec AiLogMaintenance.DATETIME_END
                   (clock - days * 86400000000)); [lia |].
  all: cbn [orb]; run_service; by rewrite Hq.
Qed.

End StoreErrors.

Lemma service_engine_errors_witness :
  (AiLogService.add_ai_log Examples.sample_row Examples.engine_down).1
    = Returned false /\
  (AiLogService.delete_ai_logs_by_ids [1; 2] Examples.engine_down).1
    = Raised (str "connection refused").
Proof.
  destruct (service_engine_errors Shapes.query_down Examples.engine_down
              (str "connection refused") (fun _ => eq_refl) (fun _ => eq_refl))
    as [Hadd [_ [_ [Hbulk _]]]].
  split; [apply (Hadd Examples.sample_row) | apply (Hbulk [1; 2])].
Defined.

Section Maintenance.
Import AiLogService.

Variable query_error : AiLogMaintenance.Query -> option pystr.

(** X15. When the engine accepts the statement, [delete_ai_log_by_id]
    returns [True], the row of that id is gone, and every other row, the
    next id and the log are as before. *)
Theorem delete_ai_log_by_id_removes (log_id : Z) (w : World) :
  engine_error (database w) (DeleteWhereIdEq log_id) = None ->
  let w' := (delete_ai_log_by_id log_id w).2 in
  (delete_ai_log_by_id log_id w).1 = Returned true /\
  table (database w') = delete log_id (table (database w)) /\
  next_id (database w') = next_id (database w) /\
  log w' = log w.
Proof.
  destruct w as [[t next err] lg clock]. simpl. intros Hok.
  run_service. rewrite Hok. run_service.
  repeat split. apply map_eq. intros i.
  destruct (decide (i = log_id)) as [-> | Hne].
  - rewrite lookup_delete_eq. apply map_lookup_filter_None.
    right. intros x _ Hx. by apply Hx.
  - rewrite lookup_delete_ne by done.
    destruct (t !! i) as [x |] eqn:E.
    + by apply map_lookup_filter_Some.
    + apply map_lookup_filter_None. by left.
Qed.

(** X16. When the engine accepts the statements, [delete_all_ai_logs]
    returns the number of rows the table held, leaves the table empty,
    and keeps the next id, so that a later insert does not reuse the id
    of a deleted row. *)
Theorem delete_all_ai_logs_empties (w : World) :
  (forall q, query_error q = None) ->
  let w' := (AiLogMaintenance.delete_all_ai_logs query_error w).2 in
  (AiLogMaintenance.delete_all_ai_logs query_error w).1
    = Returned (Z.of_nat (size (table (database w)))) /\
  table (database w') = ∅ /\
  next_id (database w') = next_id (database w).
Proof.
  destruct w as [[t next err] lg clock]. simpl. intros Hok.
  run_service. rewrite !Hok. run_service.
  repeat split. unfold AiLogMaintenance.or_zero.
  by destruct (Z.eqb_spec (Z.of_nat (size t)) 0) as [-> | ?].
Qed.

(** X17. Retention. With a working engine and a cut-off
    [now - days] that a [datetime] can hold, [delete_old_ai_logs]
    returns the number of rows whose [request_time] is before the
    cut-off and removes exactly those: a row at or after the cut-off,
    or without a time stamp, stays as it is. *)
Theorem delete_old_ai_logs_retention (days : Z) (w : World) :
  (forall q, query_error q = None) ->
  Z.abs days <= 999999999 ->
  0 <= now w - days * 86400000000 < AiLogMaintenance.DATETIME_END ->
  let cutoff_date := now w - days * 86400000000 in
  let w' := (AiLogMaintenance.delete_old_ai_logs query_error days w).2 in
  (AiLogMaintenance.delete_old_ai_logs query_error days w).1
    = Returned
        (Z.of_nat
           (size (filter (fun kv => AiLogMaintenance.older cutoff_date kv.2 = true)
                    (table (database w))))) /\
  (forall i row,
     table (database w) !! i = Some row ->
     table (database w') !! i
     = if AiLogMaintenance.older cutoff_date row then None else Some row) /\
  (forall i, table (database w) !! i = None -> table (database w') !! i = None).
Proof.
  destruct w as [[t next err] lg clock]. simpl. intros Hok Hdays Hcut.
  run_service. unfold AiLogMaintenance.timedelta, AiLogMaintenance.datetime_sub.
  destruct (Z.gtb_spec (Z.abs days) 999999999); [lia |]. run_service.
  destruct (Z.ltb_spec (clock - days * 86400000000) 0); [lia |].
  destruct (Z.leb_spec AiLogMaintenance.DATETIME_END
              (clock - days * 86400000000)); [lia |].
  cbn [orb]. run_service. rewrite !Hok. run_service.
  set (cutoff := clock - days * 86400000000).
  set (old := filter (fun kv => AiLogMaintenance.older cutoff kv.2 = true) t).
  destruct (Z.eqb_spec (Z.of_nat (size old)) 0) as [Hz | Hnz]; run_service.
  - rewrite Hz. split; [done |].
    assert (Hempty : old = ∅) by (apply map_size_empty_iff; lia).
    split; [| done]. intros i row Hrow.
    destruct (AiLogMaintenance.older cutoff row) eqn:E; [| done].
    by destruct (map_filter_empty_not_lookup _ _ i row Hempty E).
  - rewrite ?Hok. run_service. split.
    + unfold AiLogMaintenance.or_zero.
      by destruct (Z.eqb_spec (Z.of_nat (size old)) 0).
    + split.
      * intros i row Hrow.
        destruct (AiLogMaintenance.older cutoff row) eqn:E.
        -- apply map_lookup_filter_None. right. intros x Hx. simpl.
           assert (x = row) by congruence. subst x. by rewrite E.
        -- by apply map_lookup_filter_Some.
      * intros i Hi. apply map_lookup_filter_None. by left.
Qed.

End Maintenance.

Lemma delete_ai_log_by_id_removes_witness :
  (AiLogService.delete_ai_log_by_id 1 Examples.two_rows).1 = Returned true /\
  AiLogService.table
    (AiLogService.database (AiLogService.delete_ai_log_by_id 1 Examples.two_rows).2)
  = delete 1 (AiLogService.table (AiLogService.database Examples.two_rows)).
Proof.
  destruct (delete_ai_log_by_id_removes 1 Examples.two_rows eq_refl)
    as [H1 [H2 _]].
  split; [exact H1 | exact H2].
Defined.

Lemma delete_all_ai_logs_empties_witness :
  AiLogService.table
    (AiLogService.database
       (AiLogMaintenance.delete_all_ai_logs Shapes.no_query_error
          Examples.two_rows).2) = ∅ /\
  AiLogService.next_id
    (AiLogService.database
       (AiLogMaintenance.delete_all_ai_logs Shapes.no_query_error
          Examples.two_rows).2) = 3.
Proof.
  destruct (delete_all_ai_logs_empties Shapes.no_query_error Examples.two_rows
              (fun _ => eq_refl)) as [_ [H2 H3]].
  split; [exact H2 | exact H3].
Defined.

Lemma delete_old_ai_logs_retention_witness :
  AiLogService.table
    (AiLogService.database
       (AiLogMaintenance.delete_old_ai_logs Shapes.no_query_error
          AiLogMaintenance.AI_LOG_RETENTION_DAYS Shapes.old_and_new).2) !! 1
  = None /\
  AiLogService.table
    (AiLogService.database
       (AiLogMaintenance.delete_old_ai_logs Shapes.no_query_error
          AiLogMaintenance.AI_LOG_RETENTION_DAYS Shapes.old_and_new).2) !! 2
  = Some (Shapes.row_at (1700000000000000 - 3600000000)).
Proof.
  assert (Hdays : Z.abs AiLogMaintenance.AI_LOG_RETENTION_DAYS <= 999999999)
    by (vm_compute; discriminate).
  assert (Hcut : 0 <= AiLogService.now Shapes.old_and_new
                      - AiLogMaintenance.AI_LOG_RETENTION_DAYS * 86400000000
                 < AiLogMaintenance.DATETIME_END)
    by (split; vm_compute; [discriminate | reflexivity]).
  destruct (delete_old_ai_logs_retention Shapes.no_query_error
              AiLogMaintenance.AI_LOG_RETENTION_DAYS Shapes.old_and_new
              (fun _ => eq_refl) Hdays Hcut) as [_ [Hrows _]].
  split.
  - exact (Hrows 1 (Shapes.row_at (1700000000000000 - 4 * 86400000000)) eq_refl).
  - exact (Hrows 2 (Shapes.row_at (1700000000000000 - 3600000000)) eq_refl).
Defined.

(* ===================================================================== *)
(** * Further properties of the routes                                    *)
(* ===================================================================== *)

(** Unfolding of the routes down to the statements. *)
Ltac run_routes :=
  cbv beta iota zeta delta
    [AiLogRoutes.delete_ai_log_api AiLogRoutes.get_ai_log_detail_api
     AiLogBulkRoutes.delete_ai_logs_bulk_api
     AiLogBulkRoutes.delete_all_ai_logs_api
     AiLogRoutes.HTTP_204_NO_CONTENT];
  run_service.

Section MoreRoutes.
Import AiLogService AiLogRoutes AiLogBulkRoutes.

Variable verify_auth_token : pystr -> bool.
Variable query_error : AiLogMaintenance.Query -> option pystr.

Lemma rejected_without_session (cookies : list (pystr * pystr)) :
  (forall token, dict_lookup cookies (str "auth_token") = Some token ->
                 token = [] \/ verify_auth_token token = false) ->
  rejected verify_auth_token (dict_lookup cookies (str "auth_token")) = true.
Proof.
  intros H. unfold rejected.
  destruct (dict_lookup cookies (str "auth_token")) as [token |]; [| done].
  destruct (H token eq_refl) as [-> | ->]; [done |].
  by destruct token.
Qed.

(** X18. Without a session cookie that the check accepts (no
    [auth_token] cookie, an empty one, or one the check refuses), each
    of the four routes answers 401 and leaves the database as it is: no
    row is read out or deleted. *)
Theorem routes_require_session (cookies : list (pystr * pystr)) (w : World) :
  (forall token, dict_lookup cookies (str "auth_token") = Some token ->
                 token = [] \/ verify_auth_token token = false) ->
  let refused (r : outcome RouteResult * World) :=
    r.1 = Returned (HTTPException 401 (str "Not authenticated")) /\
    database r.2 = database w in
  (forall log_id, 1 <= log_id ->
     refused (delete_ai_log_api verify_auth_token cookies log_id w)) /\
  (forall log_id, 1 <= log_id ->
     refused (get_ai_log_detail_api verify_auth_token cookies log_id w)) /\
  (forall payload,
     refused (delete_ai_logs_bulk_api verify_auth_token cookies payload w)) /\
  refused (delete_all_ai_logs_api verify_auth_token query_error cookies w).
Proof.
  intros H. apply rejected_without_session in H. cbv zeta.
  destruct w as [db lg clock].
  split; [| split; [| split]].
  - intros log_id Hid. unfold delete_ai_log_api.
    destruct (Z.ltb_spec log_id 1); [lia |]. rewrite H. by run_routes.
  - intros log_id Hid. unfold get_ai_log_detail_api.
    destruct (Z.ltb_spec log_id 1); [lia |]. rewrite H. by run_routes.
  - intros payload. unfold delete_ai_logs_bulk_api. rewrite H. by run_routes.
  - unfold delete_all_ai_logs_api. rewrite H. by run_routes.
Qed.

(** X19. [DELETE /api/ai-logs/{log_id}] never answers 500: whatever the
    cookies, the id and the state of the engine, the status is 422, 401,
    404 or 204, because the service turns the engine's exception into
    [False] before the route's last handler can see it. *)
Theorem delete_ai_log_api_statuses (cookies : list (pystr * pystr))
    (log_id : Z) (w : World) :
  exists r,
    (delete_ai_log_api verify_auth_token cookies log_id w).1 = Returned r /\
    (client_status r = 422 \/ client_status r = 401 \/
     client_status r = 404 \/ client_status r = 204).
Proof.
  destruct w as [[t next err] lg clock]. unfold delete_ai_log_api.
  destruct (log_id <? 1); [eexists; split; [reflexivity | by left] |].
  destruct (rejected _ _);
    [eexists; split; [reflexivity | right; by left] |].
  run_routes.
  destruct (err (DeleteWhereIdEq log_id)); run_routes;
    eexists; (split; [reflexivity |]); simpl; tauto.
Qed.

(** X20. With a valid session, [DELETE /api/ai-logs] answers 400
    without touching the store when [ids] is missing or empty; with a
    non-empty list and an engine that accepts the statement it answers
    204, the listed rows are gone and the other rows stay; when the
    engine refuses the statement it answers 500 and no row changes. *)
Theorem delete_ai_logs_bulk_api_spec (cookies : list (pystr * pystr))
    (token : pystr) (payload : list (pystr * list Z)) (w : World) :
  dict_lookup cookies (str "auth_token") = Some token ->
  token <> [] -> verify_auth_token token = true ->
  let r := delete_ai_logs_bulk_api verify_auth_token cookies payload w in
  (dict_lookup payload (str "ids") = None
   \/ dict_lookup payload (str "ids") = Some [] ->
   r = (Returned (HTTPException 400 (str "No log IDs provided for deletion.")), w))
  /\
  (forall log_ids,
     dict_lookup payload (str "ids") = Some log_ids -> log_ids <> [] ->
     (engine_error (database w) (DeleteWhereIdIn log_ids) = None ->
      r.1 = Returned (ResponseStatus 204) /\
      forall i, table (database r.2) !! i
                = if decide (i ∈ log_ids) then None
                  else table (database w) !! i) /\
     (forall msg,
        engine_error (database w) (DeleteWhereIdIn log_ids) = Some msg ->
        r.1 = Returned (HTTPException 500
                          (str "Internal server error during bulk deletion")) /\
        database r.2 = database w)).
Proof.
  intros Hcookie Hne Hvalid. cbv zeta. unfold delete_ai_logs_bulk_api.
  rewrite Hcookie, (rejected_valid _ token Hne Hvalid).
  destruct w as [[t next err] lg clock]. split.
  - intros [-> | ->]; reflexivity.
  - intros log_ids -> Hids. destruct log_ids as [| i0 log_ids]; [done |].
    split.
    + cbn [database engine_error]. intros Hok. run_routes. rewrite Hok.
      run_routes. split; [done |]. intros i. apply filter_not_in_lookup.
    + cbn [database engine_error]. intros msg Herr. run_routes. rewrite Herr.
      by run_routes.
Qed.

(** X21. With a valid session and a working engine,
    [GET /api/ai-logs/{log_id}/details] answers 200 exactly when the
    table has a row of that id and 404 otherwise, and changes nothing;
    when the engine refuses the statement it answers 500. *)
Theorem get_ai_log_detail_api_spec (cookies : list (pystr * pystr))
    (token : pystr) (log_id : Z) (w : World) :
  1 <= log_id ->
  dict_lookup cookies (str "auth_token") = Some token ->
  token <> [] -> verify_auth_token token = true ->
  let r := get_ai_log_detail_api verify_auth_token cookies log_id w in
  (engine_error (database w) (SelectWhereIdEq log_id) = None ->
   r = (Returned (match table (database w) !! log_id with
                  | Some _ => ResponseStatus 200
                  | None => HTTPException 404 (str "AI log not found")
                  end), w)) /\
  (forall msg,
     engine_error (database w) (SelectWhereIdEq log_id) = Some msg ->
     r.1 = Returned (HTTPException 500
                       (str "Failed to get AI log details: " ++ msg)) /\
     database r.2 = database w).
Proof.
  intros Hid Hcookie Hne Hvalid. cbv zeta. unfold get_ai_log_detail_api.
  destruct (Z.ltb_spec log_id 1); [lia |].
  rewrite Hcookie, (rejected_valid _ token Hne Hvalid).
  destruct w as [[t next err] lg clock]. cbn [database engine_error table].
  split.
  - intros Hok. run_routes. rewrite Hok. run_routes. by destruct (t !! log_id).
  - intros msg Herr. run_routes. rewrite Herr. by run_routes.
Qed.

(** X22. With a valid session, [DELETE /api/ai-logs/all] answers 204
    and leaves the table empty when the engine accepts the statements,
    and answers 500 with the database unchanged when it refuses them. *)
Theorem delete_all_ai_logs_api_spec (cookies : list (pystr * pystr))
    (token : pystr) (w : World) :
  dict_lookup cookies (str "auth_token") = Some token ->
  token <> [] -> verify_auth_token token = true ->
  let r := delete_all_ai_logs_api verify_auth_token query_error cookies w in
  ((forall q, query_error q = None) ->
   r.1 = Returned (ResponseStatus 204) /\ table (database r.2) = ∅) /\
  (forall msg, (forall q, query_error q = Some msg) ->
   r.1 = Returned (HTTPException 500
                     (str "Internal server error during deletion of all logs")) /\
   database r.2 = database w).
Proof.
  intros Hcookie Hne Hvalid. cbv zeta. unfold delete_all_ai_logs_api.
  rewrite Hcookie, (rejected_valid _ token Hne Hvalid).
  destruct w as [[t next err] lg clock]. split.
  - intros Hok. run_routes. rewrite !Hok. by run_routes.
  - intros msg Herr. run_routes. rewrite !Herr. by run_routes.
Qed.

End MoreRoutes.

Lemma routes_require_session_witness :
  (AiLogRoutes.delete_ai_log_api Examples.verify_auth_token [] 1
     Examples.two_rows).1
  = Returned (AiLogRoutes.HTTPException 401 (str "Not authenticated")) /\
  AiLogService.database
    (AiLogBulkRoutes.delete_all_ai_logs_api Examples.verify_auth_token
       Shapes.no_query_error [(str "auth_token", str "stolen")]
       Examples.two_rows).2
  = AiLogService.database Examples.two_rows.
Proof.
  split.
  - refine (proj1 (proj1 (routes_require_session Examples.verify_auth_token
                            Shapes.no_query_error [] Examples.two_rows _)
                     1 _)); [| done].
    intros token H. discriminate.
  - refine (proj2 (proj2 (proj2 (proj2
              (routes_require_session Examples.verify_auth_token
                 Shapes.no_query_error [(str "auth_token", str "stolen")]
                 Examples.two_rows _))))).
    intros token [= <-]. by right.
Defined.

Lemma delete_ai_logs_bulk_api_spec_witness :
  (AiLogBulkRoutes.delete_ai_logs_bulk_api Examples.verify_auth_token
     Examples.session_cookies [(str "ids", [1; 1; 99])] Examples.two_rows).1
  = Returned (AiLogRoutes.ResponseStatus 204) /\
  AiLogBulkRoutes.delete_ai_logs_bulk_api Examples.verify_auth_token
    Examples.session_cookies [(str "ids", [])] Examples.two_rows
  = (Returned (AiLogRoutes.HTTPException 400
                 (str "No log IDs provided for deletion.")),
     Examples.two_rows).
Proof.
  split.
  - refine (proj1 (proj1 (proj2 (delete_ai_logs_bulk_api_spec
              Examples.verify_auth_token Examples.session_cookies
              (str "valid-session") [(str "ids", [1; 1; 99])] Examples.two_rows
              eq_refl _ eq_refl) [1; 1; 99] eq_refl _) eq_refl)); done.
  - refine (proj1 (delete_ai_logs_bulk_api_spec
              Examples.verify_auth_token Examples.session_cookies
              (str "valid-session") [(str "ids", [])] Examples.two_rows
              eq_refl _ eq_refl) _); [done | by right].
Defined.

Lemma get_ai_log_detail_api_spec_witness :
  AiLogRoutes.get_ai_log_detail_api Examples.verify_auth_token
    Examples.session_cookies 1 Examples.two_rows
  = (Returned (AiLogRoutes.ResponseStatus 200), Examples.two_rows) /\
  (AiLogRoutes.get_ai_log_detail_api Examples.verify_auth_token
     Examples.session_cookies 7 Examples.two_rows).1
  = Returned (AiLogRoutes.HTTPException 404 (str "AI log not found")).
Proof.
  split.
  - refine (proj1 (get_ai_log_detail_api_spec Examples.verify_auth_token
              Examples.session_cookies (str "valid-session") 1 Examples.two_rows
              _ eq_refl _ eq_refl) eq_refl); done.
  - refine (f_equal fst
              (proj1 (get_ai_log_detail_api_spec Examples.verify_auth_token
                 Examples.session_cookies (str "valid-session") 7
                 Examples.two_rows _ eq_refl _ eq_refl) eq_refl)); done.
Defined.

Lemma delete_all_ai_logs_api_spec_witness :
  (AiLogBulkRoutes.delete_all_ai_logs_api Examples.verify_auth_token
     Shapes.no_query_error Examples.session_cookies Examples.two_rows).1
  = Returned (AiLogRoutes.ResponseStatus 204) /\
  (AiLogBulkRoutes.delete_all_ai_logs_api Examples.verify_auth_token
     Shapes.query_down Examples.session_cookies Examples.two_rows).1
  = Returned (AiLogRoutes.HTTPException 500
                (str "Internal server error during deletion of all logs")).
Proof.
  split.
  - refine (proj1 (proj1 (delete_all_ai_logs_api_spec Examples.verify_auth_token
              Shapes.no_query_error Examples.session_cookies
              (str "valid-session") Examples.two_rows eq_refl _ eq_refl)
              (fun _ => eq_refl))). done.
  - refine (proj1 (proj2 (delete_all_ai_logs_api_spec Examples.verify_auth_token
              Shapes.query_down Examples.session_cookies
              (str "valid-session") Examples.two_rows eq_refl _ eq_refl)
              (str "connection refused") (fun _ => eq_refl))). done.
Defined.

(* ===================================================================== *)
(** * Listing and counting                                                *)
(* ===================================================================== *)

Lemma filter_keys_sublist {A} (f : Z * A -> bool) (l : list (Z * A)) :
  map fst (List.filter f l) `sublist_of` map fst l.
Proof.
  induction l as [| x l IH]; simpl; [constructor |].
  destruct (f x); simpl; [by apply sublist_skip | by apply sublist_cons].
Qed.

Lemma filter_elem {A} (f : A -> bool) (l : list A) (x : A) :
  x ∈ List.filter f l -> x ∈ l.
Proof. rewrite !list_elem_of_In, filter_In. tauto. Qed.

Section Listing.
Import AiLogService AiLogListing.

Variable ilike : pystr -> pyval -> bool.
Variable order_rows :
  pystr -> bool -> list (Z * AILogValues) -> list (Z * AILogValues).
Variable select_error : Select -> option pystr.
Variable int_of_str : pystr -> option Z.

Hypothesis order_rows_permutes :
  forall sort_by ascending rows, order_rows sort_by ascending rows ≡ₚ rows.

Ltac run_listing :=
  cbv beta iota zeta delta
    [get_ai_logs get_ai_logs_count AiLogListing.fetch_all
     AiLogListing.fetch_val logger try_except mbind mret block_bind block_ret
     eval assign read raise database log now table next_id engine_error];
  cbn [fst snd].

(** X23. Pagination. With an engine that raises no error and whose
    [ORDER BY] only reorders rows, and with [limit] and [offset] not
    negative, [get_ai_logs] returns [min(limit, max(0, total - offset))]
    rows, where [total] is what [get_ai_logs_count] returns for the same
    filters, whatever the page; the rows have different ids, each is a
    row of the table, and neither call changes anything. *)
Theorem get_ai_logs_page (limit offset : Z)
    (model_search status_code_search : option pystr)
    (start_date end_date : option Z) (sort_by sort_order : pystr) (w : World) :
  (forall q, select_error q = None) ->
  0 <= limit -> 0 <= offset ->
  exists rows total,
    get_ai_logs ilike order_rows select_error int_of_str limit offset
      model_search status_code_search start_date end_date sort_by sort_order w
    = (Returned rows, w) /\
    get_ai_logs_count ilike select_error int_of_str
      model_search status_code_search start_date end_date w
    = (Returned total, w) /\
    len rows = Z.min limit (Z.max 0 (total - offset)) /\
    NoDup (map id rows) /\
    (forall r, r ∈ rows ->
       exists row, table (database w) !! id r = Some row /\
                   r = listed (id r, row)).
Proof.
  intros Hok Hlimit Hoffset. destruct w as [[t next err] lg clock].
  run_listing. rewrite !Hok. run_listing.
  match goal with
  | |- context [selected ilike ?cs t] => set (clauses := cs)
  end.
  set (sel := selected ilike clauses t).
  set (sorted := order_rows sort_by (str_eqb (lower sort_order) (str "asc")) sel).
  assert (Hperm : sorted ≡ₚ sel) by apply order_rows_permutes.
  eexists _, _. split; [reflexivity |]. split; [reflexivity |].
  assert (Hzero : AiLogMaintenance.or_zero (len sel) = len sel).
  { unfold AiLogMaintenance.or_zero. by destruct (Z.eqb_spec (len sel) 0). }
  rewrite Hzero. split; [| split].
  - unfold len. rewrite length_map, length_take, length_drop.
    rewrite (Permutation_length Hperm). lia.
  - assert (Hid : forall l : list (Z * AILogValues),
                map id (map listed l) = map fst l).
    { intros l. rewrite map_map. by apply map_ext. }
    rewrite Hid.
    assert (Hsub1 : (take (Z.to_nat limit) (drop (Z.to_nat offset) sorted)).*1
                    `sublist_of` sorted.*1).
    { apply fmap_sublist. etrans; [apply sublist_take | apply sublist_drop]. }
    assert (Hsub2 : sel.*1 `sublist_of` (map_to_list t).*1)
      by apply filter_keys_sublist.
    assert (Hnd : NoDup sorted.*1).
    { rewrite Hperm.
      exact (sublist_NoDup _ _ (NoDup_fst_map_to_list t) Hsub2). }
    exact (sublist_NoDup _ _ Hnd Hsub1).
  - intros r Hr. apply list_elem_of_fmap in Hr as [[i row] [-> Hin]].
    exists row. split; [| done]. simpl.
    apply elem_of_map_to_list.
    apply (filter_elem (fun kv => forallb (holds ilike kv.2) clauses)).
    fold (selected ilike clauses t). fold sel. rewrite <- Hperm.
    apply (elem_of_sublist _ _ _ Hin).
    etrans; [apply sublist_take | apply sublist_drop].
Qed.

(** X24. Arguments that are passed over. A [status_code_search] that
    [int] rejects filters nothing, like a missing one, and so does an
    empty [model_search]; a [sort_order] other than [asc] (in any
    letter case) sorts as [desc]. The count passes over the same two
    filters. *)
Theorem get_ai_logs_ignored_arguments (limit offset : Z)
    (model_search status_code_search : option pystr)
    (start_date end_date : option Z) (sort_by sort_order : pystr) (w : World) :
  (forall s, status_code_search = Some s -> int_of_str s = None ->
     get_ai_logs ilike order_rows select_error int_of_str limit offset
       model_search status_code_search start_date end_date sort_by sort_order w
     = get_ai_logs ilike order_rows select_error int_of_str limit offset
         model_search None start_date end_date sort_by sort_order w /\
     get_ai_logs_count ilike select_error int_of_str
       model_search status_code_search start_date end_date w
     = get_ai_logs_count ilike select_error int_of_str
         model_search None start_date end_date w) /\
  (model_search = Some [] ->
     get_ai_logs ilike order_rows select_error int_of_str limit offset
       model_search status_code_search start_date end_date sort_by sort_order w
     = get_ai_logs ilike order_rows select_error int_of_str limit offset
         None status_code_search start_date end_date sort_by sort_order w /\
     get_ai_logs_count ilike select_error int_of_str
       model_search status_code_search start_date end_date w
     = get_ai_logs_count ilike select_error int_of_str
         None status_code_search start_date end_date w) /\
  (lower sort_order <> str "asc" ->
     get_ai_logs ilike order_rows select_error int_of_str limit offset
       model_search status_code_search start_date end_date sort_by sort_order w
     = get_ai_logs ilike order_rows select_error int_of_str limit offset
         model_search status_code_search start_date end_date sort_by
         (str "desc") w) /\
  (lower sort_order = str "asc" ->
     get_ai_logs ilike order_rows select_error int_of_str limit offset
       model_search status_code_search start_date end_date sort_by sort_order w
     = get_ai_logs ilike order_rows select_error int_of_str limit offset
         model_search status_code_search start_date end_date sort_by
         (str "asc") w).
Proof.
  split; [| split; [| split]].
  - intros s -> Hint. unfold get_ai_logs, get_ai_logs_count.
    destruct s as [| c s]; [done |]. by rewrite Hint.
  - by intros ->.
  - intros Hne. unfold get_ai_logs.
    assert (E : str_eqb (lower sort_order) (str "asc") = false).
    { apply not_true_is_false. by rewrite str_eqb_eq. }
    by rewrite E.
  - intros Heq. unfold get_ai_logs. by rewrite Heq.
Qed.

End Listing.

Lemma get_ai_logs_page_witness :
  exists rows,
    AiLogListing.get_ai_logs Shapes.sample_ilike Shapes.sample_order
      Shapes.no_select_error Shapes.sample_int 1 0 None None None None
      (str "id") (str "desc") Examples.two_rows
    = (Returned rows, Examples.two_rows) /\
    AiLogListing.get_ai_logs_count Shapes.sample_ilike Shapes.no_select_error
      Shapes.sample_int None None None None Examples.two_rows
    = (Returned 2, Examples.two_rows) /\
    len rows = 1.
Proof.
  destruct (get_ai_logs_page Shapes.sample_ilike Shapes.sample_order
              Shapes.no_select_error Shapes.sample_int
              (fun _ _ rows => reflexivity rows)
              1 0 None None None None (str "id") (str "desc")
              Examples.two_rows (fun _ => eq_refl)
              ltac:(done) ltac:(done))
    as [rows [total [Hrows [Hcount [Hlen _]]]]].
  assert (Htotal : total = 2).
  { assert (H : AiLogListing.get_ai_logs_count Shapes.sample_ilike
                  Shapes.no_select_error Shapes.sample_int None None None None
                  Examples.two_rows
                = (Returned 2, Examples.two_rows)) by (by vm_compute).
    rewrite H in Hcount. by injection Hcount. }
  subst total. exists rows. split; [exact Hrows |]. split; [exact Hcount |].
  exact Hlen.
Defined.

Lemma get_ai_logs_ignored_arguments_witness :
  AiLogListing.get_ai_logs Shapes.sample_ilike Shapes.sample_order
    Shapes.no_select_error Shapes.sample_int 20 0 None (Some (str "ok"))
    None None (str "id") (str "desc") Examples.two_rows
  = AiLogListing.get_ai_logs Shapes.sample_ilike Shapes.sample_order
      Shapes.no_select_error Shapes.sample_int 20 0 None None
      None None (str "id") (str "desc") Examples.two_rows.
Proof.
  apply (proj1 (get_ai_logs_ignored_arguments Shapes.sample_ilike
                  Shapes.sample_order Shapes.no_select_error Shapes.sample_int
                  20 0 None (Some (str "ok")) None None (str "id") (str "desc")
                  Examples.two_rows) (str "ok") eq_refl eq_refl).
Defined.

(* ===================================================================== *)
(** * One exchange, end to end                                            *)
(* ===================================================================== *)

Lemma dict_lookup_filter_other {V} (d : list (pystr * V)) (k k0 : pystr) :
  k <> k0 ->
  dict_lookup (filter (fun kv => kv.1 ≠ k0) d) k = dict_lookup d k.
Proof.
  intros Hne. induction d as [| [k1 v] d IH]; [done |].
  rewrite filter_cons. simpl.
  destruct (decide (k1 ≠ k0)) as [H1 | H1]; simpl.
  - by rewrite IH.
  - destruct (str_eqb k1 k) eqn:E; [| done].
    apply str_eqb_eq in E. subst k1. destruct H1. congruence.
Qed.

Lemma dict_of_headers_lookup (lines : list (pystr * pystr)) (k : pystr) :
  dict_lookup (dict_of_headers lines) k = dict_lookup lines k.
Proof.
  induction lines as [| [k0 v] lines IH]; [done |]. simpl.
  destruct (str_eqb k0 k) eqn:E; [done |].
  rewrite dict_lookup_filter_other; [done |].
  intros ->. by rewrite (proj2 (str_eqb_eq k0 k0) eq_refl) in E.
Qed.

Section EndToEnd.

Variable json_loads : pystr -> outcome pyval.
Variable json_dumps : list (pystr * pystr) -> pystr.
Variable decode : pybytes -> pystr.

(** X25. The header lines of the response that [dispatch] returns on a
    monitored path: one line per name, and under each name the first
    line that the handler's response has under it. A name is never
    dropped; further lines of a repeated name are. *)
Theorem dispatch_headers_first_line (request : Request)
    (call_next : Request -> outcome Response) (request_time duration_ms : Z)
    (returned : Response) (task : AiLogService.AILogValues) :
  dispatch json_loads json_dumps decode request call_next request_time duration_ms
    = Returned (returned, Some task) ->
  exists response,
    call_next (forwarded_request request
                 (read_request_body json_loads decode request).1.1)
      = Returned response /\
    NoDup (map fst (headers returned)) /\
    (forall name,
       dict_lookup (headers returned) name
       = dict_lookup (headers response) name).
Proof.
  intros H. apply dispatch_task_inv in H as [_ [response [Hcall [_ ->]]]].
  exists response. split; [done |]. simpl. split.
  - apply dict_of_headers_names.
  - apply dict_of_headers_lookup.
Qed.

(** X26. One record per monitored exchange. When the handler returns
    on a monitored path and the engine accepts inserts, the exchange
    adds exactly one row to the store, under the next id, holding the
    values that [dispatch] gave to the task; every other row stays. *)
Theorem exchange_records_once (request : Request)
    (call_next : Request -> outcome Response) (request_time duration_ms : Z)
    (returned : Response) (task : AiLogService.AILogValues)
    (w : AiLogService.World) :
  dispatch json_loads json_dumps decode request call_next request_time duration_ms
    = Returned (returned, Some task) ->
  (forall values,
     AiLogService.engine_error (AiLogService.database w)
       (AiLogService.InsertValues values) = None) ->
  let result :=
    exchange json_loads json_dumps decode request call_next request_time
      duration_ms w in
  let fresh := AiLogService.next_id (AiLogService.database w) in
  result.1 = Returned returned /\
  AiLogService.table (AiLogService.database result.2) !! fresh = Some task /\
  AiLogService.next_id (AiLogService.database result.2) = fresh + 1 /\
  (forall i, i <> fresh ->
     AiLogService.table (AiLogService.database result.2) !! i
     = AiLogService.table (AiLogService.database w) !! i).
Proof.
  intros H Hok. cbv zeta. unfold exchange. rewrite H.
  apply dispatch_task_inv in H as [_ [response [_ [Htask _]]]].
  assert (Htime : AiLogService.request_time task = Some request_time).
  { rewrite Htask. unfold save_log_arguments.
    destruct (read_request_body json_loads decode request) as [[? ?] ?].
    by destruct (extract_tokens_from_response json_loads _) as [[? ?] ?]. }
  destruct w as [[t next err] lg clock]. simpl in Hok.
  run_service. rewrite Hok. run_service. rewrite Htime.
  assert (Hrow : forall kw : AiLogService.AILogValues,
            AiLogService.request_time kw = Some request_time ->
            {| AiLogService.method := AiLogService.method kw;
               AiLogService.path := AiLogService.path kw;
               AiLogService.request_headers := AiLogService.request_headers kw;
               AiLogService.request_body := AiLogService.request_body kw;
               AiLogService.status_code := AiLogService.status_code kw;
               AiLogService.response_body := AiLogService.response_body kw;
               AiLogService.latency_ms := AiLogService.latency_ms kw;
               AiLogService.model_name := AiLogService.model_name kw;
               AiLogService.api_key := AiLogService.api_key kw;
               AiLogService.request_time := Some request_time;
               AiLogService.prompt_tokens := AiLogService.prompt_tokens kw;
               AiLogService.completion_tokens := AiLogService.completion_tokens kw;
               AiLogService.total_tokens := AiLogService.total_tokens kw;
               AiLogService.content_preview := AiLogService.content_preview kw |}
            = kw).
  { intros kw Hkw. destruct kw. simpl in *. by subst. }
  rewrite (Hrow task Htime).
  split; [done |]. split; [by rewrite lookup_insert_eq |]. split; [done |].
  intros i Hi. by rewrite lookup_insert_ne.
Qed.

End EndToEnd.

Lemma dispatch_headers_first_line_witness :
  exists returned task,
    Examples.dispatch Examples.bearer_request Examples.cookie_handler
      = Returned (returned, Some task) /\
    dict_lookup (headers returned) (str "set-cookie") = Some (str "a=1").
Proof.
  destruct (Examples.dispatch Examples.bearer_request Examples.cookie_handler)
    as [[returned [task |]] | e] eqn:H;
    try (vm_compute in H; discriminate).
  exists returned, task. split; [reflexivity |].
  destruct (dispatch_headers_first_line _ _ _ _ _ _ _ _ _ H)
    as [response [Hcall [_ Hlookup]]].
  injection Hcall as <-. exact (Hlookup (str "set-cookie")).
Defined.

Lemma exchange_records_once_witness :
  exists task,
    AiLogService.table
      (AiLogService.database
         (exchange JsonSample.json_loads JsonSample.json_dumps JsonSample.decode
            Examples.bearer_request Examples.plain_handler 1700000000000000 5
            Examples.two_rows).2) !! 3 = Some task /\
    AiLogService.api_key task = Some (str "sk-abc...efghij").
Proof.
  destruct (Examples.dispatch Examples.bearer_request Examples.plain_handler)
    as [[returned [task |]] | e] eqn:H;
    try (vm_compute in H; discriminate).
  exists task. split.
  - exact (proj1 (proj2 (exchange_records_once _ _ _ _ _ _ _ _ _
                           Examples.two_rows H (fun _ => eq_refl)))).
  - assert (Hkey : option_map AiLogService.api_key
                     (match Examples.dispatch Examples.bearer_request
                              Examples.plain_handler with
                      | Returned (_, Some t) => Some t
                      | _ => None
                      end) = Some (Some (str "sk-abc...efghij")))
      by (by vm_compute).
    rewrite H in Hkey. by injection Hkey.
Defined.
